(** * ZXingWasmQrcodeDecoder: the adapter between html5-qrcode and zxing-wasm

    A shallow embedding of [src/zxing-wasm-qrcode-decoder.ts] and the
    properties of its specification.

    Conventions of the embedding:
    - a JavaScript string is a [string]; only concatenation, equality and
      [endsWith] are used, and they do not depend on the alphabet;
    - a JavaScript [Map] is an association list in insertion order;
    - a field that has not been assigned yet holds [None] ([undefined]);
    - methods run in a monad that threads the instance's fields and the
      observable calls made to the collaborators (logger, engine), and that
      ends by returning, by throwing, or by waiting on a promise that never
      settles. *)

From Stdlib Require Import String Ascii List Bool Arith ZArith Lia.
Import ListNotations.
Local Open Scope string_scope.

(* ------------------------------------------------------------------ *)
(** ** JavaScript strings *)

Module JsString.

(** [s.endsWith(search)]: the last [length search] characters of [s]
    are [search]. *)
Definition endsWith (s search : string) : bool :=
  let len := String.length s in
  let searchLength := String.length search in
  if Nat.ltb len searchLength then false
  else String.eqb (substring (len - searchLength) searchLength s) search.

(** A value spliced into a template literal: [undefined] prints as the
    word itself. *)
Definition template (v : option string) : string :=
  match v with
  | Some s => s
  | None => "undefined"
  end.

End JsString.

(* ------------------------------------------------------------------ *)
(** ** JavaScript maps *)

(** Keys of a [Map] are compared with SameValueZero, which on strings and
    on the numbers of an enumeration is equality. *)
Class SameValueZero (K : Type) := same : K -> K -> bool.

Class SameValueZeroSpec (K : Type) `{SameValueZero K} :=
  same_eq : forall a b : K, same a b = true <-> a = b.

#[export] Instance SameValueZero_string : SameValueZero string := String.eqb.

Module JsMap.
Section Ops.
Context {K V : Type} `{SameValueZero K}.

(** Entries in insertion order; [set] keeps every key at most once. *)
Definition t := list (K * V).

Definition empty : t := [].

Fixpoint get (m : t) (k : K) : option V :=
  match m with
  | [] => None
  | (k', v) :: rest => if same k' k then Some v else get rest k
  end.

Definition has (m : t) (k : K) : bool :=
  match get m k with
  | Some _ => true
  | None => false
  end.

(** [m.set(k, v)]: an existing key keeps its place and takes the new
    value, a new key goes last. *)
Fixpoint set (m : t) (k : K) (v : V) : t :=
  match m with
  | [] => [(k, v)]
  | (k', v') :: rest =>
      if same k' k then (k', v) :: rest else (k', v') :: set rest k v
  end.

(** [new Map(entries)]. *)
Definition ofEntries (entries : list (K * V)) : t :=
  fold_left (fun m e => set m (fst e) (snd e)) entries empty.

(** [m.forEach((value, key) => ...)] with the callback's effect on a
    state [S], in insertion order. *)
Definition forEach {S : Type} (m : t) (callback : V -> K -> S -> S)
    (s : S) : S :=
  fold_left (fun acc e => callback (snd e) (fst e) acc) m s.

Definition keys (m : t) : list K := map fst m.
Definition values (m : t) : list V := map snd m.

End Ops.
Arguments t : clear implicits.
End JsMap.

(* ------------------------------------------------------------------ *)
(** ** The host interface ([./core]) *)

(** Modelled from the spec: the enumeration [Html5QrcodeSupportedFormats]
    is declared in [core.ts], which is not among the sources.  The
    fourteen kinds named here are those the adapter's table names (the
    spec lists the same ones); [OTHER_FORMAT] stands for any further
    member of the enumeration, one the table does not list. *)
Inductive Html5QrcodeSupportedFormats : Type :=
| QR_CODE
| AZTEC
| CODABAR
| CODE_39
| CODE_93
| CODE_128
| DATA_MATRIX
| MAXICODE
| ITF
| EAN_13
| EAN_8
| PDF_417
| UPC_A
| UPC_E
| OTHER_FORMAT (member : nat).

Definition Html5QrcodeSupportedFormats_eqb
    (a b : Html5QrcodeSupportedFormats) : bool :=
  match a, b with
  | QR_CODE, QR_CODE => true
  | AZTEC, AZTEC => true
  | CODABAR, CODABAR => true
  | CODE_39, CODE_39 => true
  | CODE_93, CODE_93 => true
  | CODE_128, CODE_128 => true
  | DATA_MATRIX, DATA_MATRIX => true
  | MAXICODE, MAXICODE => true
  | ITF, ITF => true
  | EAN_13, EAN_13 => true
  | EAN_8, EAN_8 => true
  | PDF_417, PDF_417 => true
  | UPC_A, UPC_A => true
  | UPC_E, UPC_E => true
  | OTHER_FORMAT m, OTHER_FORMAT n => Nat.eqb m n
  | _, _ => false
  end.

#[export] Instance SameValueZero_format :
    SameValueZero Html5QrcodeSupportedFormats :=
  Html5QrcodeSupportedFormats_eqb.

(** The [Logger] capability.  A logger is a foreign object; what the
    adapter does to it is recorded as the list of [logError] calls. *)
Inductive Logger : Type := LoggerRef (id : nat).

(** Modelled from the spec: [QrcodeResultFormat] is declared in [core.ts],
    which is not among the sources.  The spec gives the result's format as
    the mapped symbology itself, so [create] wraps its argument. *)
Module QrcodeResultFormat.
Record t : Type := { format : Html5QrcodeSupportedFormats }.
Definition create (format : Html5QrcodeSupportedFormats) : t :=
  {| format := format |}.
End QrcodeResultFormat.

Module QrcodeResultDebugData.
Record t : Type := { decoderName : string }.
End QrcodeResultDebugData.

Module QrcodeResult.
Record t : Type := {
  text : string;
  format : QrcodeResultFormat.t;
  debugData : QrcodeResultDebugData.t
}.
End QrcodeResult.

(* ------------------------------------------------------------------ *)
(** ** Values thrown, and how a computation ends *)

Inductive JsThrown : Type :=
| ThrowString (s : string)
    (** [throw "..."]: the adapter's own errors are bare strings *)
| TypeError (read : string)
    (** raised by the language when a property is read from [undefined] or
        [null]; [read] is the expression that had no value (the wording of
        the message is the JavaScript engine's own) *)
| Foreign (what : string)
    (** raised by a collaborator (the drawing surface, the engine) *).

Inductive Outcome (A : Type) : Type :=
| Returns (a : A)
| Throws (e : JsThrown)
| Stalls.
Arguments Returns {A} a.
Arguments Throws {A} e.
Arguments Stalls {A}.

(** The state of a promise. *)
Inductive PromiseState (A : Type) : Type :=
| Pending
| Fulfilled (value : A)
| Rejected (reason : JsThrown).
Arguments Pending {A}.
Arguments Fulfilled {A} value.
Arguments Rejected {A} reason.

(** The promise of an [async] function settles as its body ends. *)
Definition settle {A : Type} (o : Outcome A) : PromiseState A :=
  match o with
  | Returns a => Fulfilled a
  | Throws e => Rejected e
  | Stalls => Pending
  end.

(* ------------------------------------------------------------------ *)
(** ** The decoding engine ([zxing-wasm]) and the drawing surface *)

Module ReadResult.
Record t : Type := { text : string; format : string }.
End ReadResult.

Module DecodeHints.
Record t : Type := {
  tryHarder : bool;
  formats : list string;
  maxNumberOfSymbols : Z
}.
End DecodeHints.

Record ImageData : Type := {
  data : list N;
  imageWidth : Z;
  imageHeight : Z
}.

Module Canvas.
(** [getImageData(sx, sy, sw, sh)] yields the pixels or throws. *)
Record CanvasRenderingContext2D : Type := {
  getImageData : Z -> Z -> Z -> Z -> JsThrown + ImageData
}.

Record ContextAttributes : Type := { willReadFrequently : bool }.

(** [getContext(contextId, attributes)] yields a context or [null]. *)
Record HTMLCanvasElement : Type := {
  width : Z;
  height : Z;
  getContext : string -> ContextAttributes -> option CanvasRenderingContext2D
}.
End Canvas.

(* ------------------------------------------------------------------ *)
(** ** The instance and the runtime around it *)

Record ZXingWasmQrcodeDecoder : Type := {
  formatMap : JsMap.t Html5QrcodeSupportedFormats string;
  reverseFormatMap : JsMap.t string Html5QrcodeSupportedFormats;
  verbose : option bool;
  logger : option Logger;
  decodeHints : option DecodeHints.t;
  wasmLocationOverride : option string
}.

(** The [locateFile] hook handed to [setZXingModuleOverrides].  The arrow
    function reads the fields of the instance when it is called, so the
    hook is kept as a function of the instance. *)
Definition LocateFile : Type :=
  ZXingWasmQrcodeDecoder -> string -> string -> string.

Record Runtime : Type := {
  this : ZXingWasmQrcodeDecoder;
  (** process-wide: the overrides last registered with the engine *)
  zxingModuleOverrides : option LocateFile;
  (** the calls of [logError], oldest first *)
  logErrorCalls : list (Logger * string);
  (** the calls of [readBarcodesFromImageData], oldest first *)
  engineCalls : list (ImageData * option DecodeHints.t)
}.

Definition with_this (f : ZXingWasmQrcodeDecoder -> ZXingWasmQrcodeDecoder)
    (rt : Runtime) : Runtime :=
  {| this := f (this rt);
     zxingModuleOverrides := zxingModuleOverrides rt;
     logErrorCalls := logErrorCalls rt;
     engineCalls := engineCalls rt |}.

Definition assign_wasmLocationOverride (v : string)
    (o : ZXingWasmQrcodeDecoder) : ZXingWasmQrcodeDecoder :=
  {| formatMap := formatMap o;
     reverseFormatMap := reverseFormatMap o;
     verbose := verbose o;
     logger := logger o;
     decodeHints := decodeHints o;
     wasmLocationOverride := Some v |}.

Definition assign_decodeHints (v : DecodeHints.t)
    (o : ZXingWasmQrcodeDecoder) : ZXingWasmQrcodeDecoder :=
  {| formatMap := formatMap o;
     reverseFormatMap := reverseFormatMap o;
     verbose := verbose o;
     logger := logger o;
     decodeHints := Some v;
     wasmLocationOverride := wasmLocationOverride o |}.

Definition assign_verbose (v : bool)
    (o : ZXingWasmQrcodeDecoder) : ZXingWasmQrcodeDecoder :=
  {| formatMap := formatMap o;
     reverseFormatMap := reverseFormatMap o;
     verbose := Some v;
     logger := logger o;
     decodeHints := decodeHints o;
     wasmLocationOverride := wasmLocationOverride o |}.

Definition assign_logger (v : Logger)
    (o : ZXingWasmQrcodeDecoder) : ZXingWasmQrcodeDecoder :=
  {| formatMap := formatMap o;
     reverseFormatMap := reverseFormatMap o;
     verbose := verbose o;
     logger := Some v;
     decodeHints := decodeHints o;
     wasmLocationOverride := wasmLocationOverride o |}.

(** *** The monad of method bodies *)

Definition M (A : Type) : Type := Runtime -> Outcome A * Runtime.

Definition ret {A : Type} (a : A) : M A := fun rt => (Returns a, rt).

Definition bind {A B : Type} (c : M A) (k : A -> M B) : M B :=
  fun rt =>
    match c rt with
    | (Returns a, rt') => k a rt'
    | (Throws e, rt') => (Throws e, rt')
    | (Stalls, rt') => (Stalls, rt')
    end.

Definition throw {A : Type} (e : JsThrown) : M A := fun rt => (Throws e, rt).

Declare Scope js_scope.
Delimit Scope js_scope with js.
Notation "x <- c1 ;; c2" := (bind c1 (fun x => c2))
  (at level 100, c1 at next level, right associativity) : js_scope.
Notation "c1 ;; c2" := (bind c1 (fun _ => c2))
  (at level 100, right associativity) : js_scope.
Local Open Scope js_scope.

(** Reading [this]. *)
Definition getThis : M ZXingWasmQrcodeDecoder := fun rt => (Returns (this rt), rt).

(** An assignment [this.field = v]. *)
Definition assign (f : ZXingWasmQrcodeDecoder -> ZXingWasmQrcodeDecoder) :
    M unit :=
  fun rt => (Returns tt, with_this f rt).

(** [setZXingModuleOverrides({ locateFile })]: last write wins. *)
Definition setZXingModuleOverrides (hook : LocateFile) : M unit :=
  fun rt =>
    (Returns tt,
     {| this := this rt;
        zxingModuleOverrides := Some hook;
        logErrorCalls := logErrorCalls rt;
        engineCalls := engineCalls rt |}).

(** [receiver.logError(message)] where [receiver] is the value of
    [this.logger]: reading a property of [undefined] throws before the
    argument is looked at. *)
Definition logError (receiver : option Logger) (message : string) : M unit :=
  match receiver with
  | None => throw (TypeError "this.logger")
  | Some l =>
      fun rt =>
        (Returns tt,
         {| this := this rt;
            zxingModuleOverrides := zxingModuleOverrides rt;
            logErrorCalls := logErrorCalls rt ++ [(l, message)];
            engineCalls := engineCalls rt |})
  end.

(** What a collaborator's call gave, lifted into the monad. *)
Definition liftCall {A : Type} (r : JsThrown + A) : M A :=
  match r with
  | inl e => throw e
  | inr a => ret a
  end.

(** [try { body } catch (error) { handler }]. *)
Definition tryCatch {A : Type} (body : M A) (handler : JsThrown -> M A) :
    M A :=
  fun rt =>
    match body rt with
    | (Throws error, rt') => handler error rt'
    | completed => completed
    end.

(** The promise under construction while an executor runs: [None] until
    [resolve] or [reject] is called, and the first call stays. *)
Definition resolve {A : Type} (value : PromiseState A)
    (cell : option (PromiseState A)) : option (PromiseState A) :=
  match cell with
  | None => Some value
  | Some _ => cell
  end.

Definition reject {A : Type} (reason : JsThrown)
    (cell : option (PromiseState A)) : option (PromiseState A) :=
  match cell with
  | None => Some (Rejected reason)
  | Some _ => cell
  end.

(** [new Promise(executor)].  The executor runs at once, on a promise
    nothing has settled yet; [resolve] given a promise makes the new one
    follow it.  An executor that throws before settling rejects the
    promise, one that returns without settling leaves it pending. *)
Definition newPromise {A : Type}
    (executor : option (PromiseState A) -> M (option (PromiseState A)))
    (rt : Runtime) : PromiseState A * Runtime :=
  match executor None rt with
  | (Returns (Some state), rt') => (state, rt')
  | (Returns None, rt') => (Pending, rt')
  | (Throws error, rt') => (Rejected error, rt')
  | (Stalls, rt') => (Pending, rt')
  end.

(** Calling an [async] method: the call itself returns its promise and
    never throws. *)
Definition callAsync {A : Type} (method : Runtime -> PromiseState A * Runtime) :
    M (PromiseState A) :=
  fun rt => let (promise, rt') := method rt in (Returns promise, rt').

(* ------------------------------------------------------------------ *)
(** ** The class [ZXingWasmQrcodeDecoder] *)

(** The entries of the [formatMap] literal, in the order written. *)
Definition formatMapEntries : list (Html5QrcodeSupportedFormats * string) :=
  [ (QR_CODE, "QRCode");
    (AZTEC, "Aztec");
    (CODABAR, "Codabar");
    (CODE_39, "Code39");
    (CODE_93, "Code93");
    (CODE_128, "Code128");
    (DATA_MATRIX, "DataMatrix");
    (MAXICODE, "MaxiCode");
    (ITF, "ITF");
    (EAN_13, "EAN-13");
    (EAN_8, "EAN-8");
    (PDF_417, "PDF417");
    (UPC_A, "UPC-A");
    (UPC_E, "UPC-E") ].

(** [createReverseFormatMap], reading [this.formatMap]. *)
Definition createReverseFormatMap
    (formatMap : JsMap.t Html5QrcodeSupportedFormats string) :
    JsMap.t string Html5QrcodeSupportedFormats :=
  let result := JsMap.empty in
  JsMap.forEach formatMap
    (fun value key result => JsMap.set result value key) result.

(** The instance as the field initialisers leave it, before the body of
    the constructor runs: the two tables are built, the other four fields
    are still [undefined]. *)
Definition fieldInitializers : ZXingWasmQrcodeDecoder :=
  let formatMap := JsMap.ofEntries formatMapEntries in
  {| formatMap := formatMap;
     reverseFormatMap := createReverseFormatMap formatMap;
     verbose := None;
     logger := None;
     decodeHints := None;
     wasmLocationOverride := None |}.

(** The arrow function registered as [locateFile]. *)
Definition locateFile : LocateFile :=
  fun this path prefix =>
    if JsString.endsWith path ".wasm"
    then JsString.template (wasmLocationOverride this) ++ path
    else prefix ++ path.

Definition createDebugData : QrcodeResultDebugData.t :=
  {| QrcodeResultDebugData.decoderName := "zxing-wasm" |}.

(** [toHtml5QrcodeSupportedFormats].  [has] followed by [get] is one
    lookup: [JsMap.has] is [true] exactly when [JsMap.get] finds a value. *)
Definition toHtml5QrcodeSupportedFormats (zxingFormat : string) :
    M Html5QrcodeSupportedFormats :=
  this <- getThis ;;
  match JsMap.get (reverseFormatMap this) zxingFormat with
  | None => throw (ThrowString ("reverseFormatMap doesn't have " ++ zxingFormat))
  | Some format => ret format
  end.

Section Adapter.

(** [core.ts] fixes the number behind each member of the enumeration; a
    template literal prints that number. *)
Variable formatToString : Html5QrcodeSupportedFormats -> string.

(** The engine's entry point: the state its promise reaches. *)
Variable readBarcodesFromImageData :
  ImageData -> option DecodeHints.t -> PromiseState (list ReadResult.t).

(** The [for ... of] loop of [createZXingFormats]; [zxingFormats] is the
    array being filled.  As in [toHtml5QrcodeSupportedFormats], [has]
    followed by [get] is one lookup. *)
Fixpoint createZXingFormats_loop
    (requestedFormats : list Html5QrcodeSupportedFormats)
    (zxingFormats : list string) : M (list string) :=
  match requestedFormats with
  | [] => ret zxingFormats
  | requestedFormat :: rest =>
      this <- getThis ;;
      match JsMap.get (formatMap this) requestedFormat with
      | Some tag => createZXingFormats_loop rest (zxingFormats ++ [tag])
      | None =>
          logError (logger this)
            (formatToString requestedFormat ++ " is not supported by"
               ++ "ZXingWasmQrcodeShim") ;;
          createZXingFormats_loop rest zxingFormats
      end
  end.

Definition createZXingFormats
    (requestedFormats : list Html5QrcodeSupportedFormats) :
    M (list string) :=
  createZXingFormats_loop requestedFormats [].

(** The body of the constructor. *)
Definition constructor
    (requestedFormats : list Html5QrcodeSupportedFormats)
    (verbose : bool) (logger : Logger)
    (wasmLocationOveride : option string) : M unit :=
  match wasmLocationOveride with
  | Some path =>
      assign (assign_wasmLocationOverride path) ;;
      this <- getThis ;;
      match wasmLocationOverride this with
      | None => throw (TypeError "this.wasmLocationOverride")
      | Some current =>
          if negb (JsString.endsWith current "/")
          then assign (assign_wasmLocationOverride (current ++ "/"))
          else ret tt
      end ;;
      setZXingModuleOverrides locateFile
  | None => ret tt
  end ;;
  formats <- createZXingFormats requestedFormats ;;
  assign (assign_decodeHints
            {| DecodeHints.tryHarder := false;
               DecodeHints.formats := formats;
               DecodeHints.maxNumberOfSymbols := 1 |}) ;;
  assign (assign_verbose verbose) ;;
  assign (assign_logger logger).

(** [new ZXingWasmQrcodeDecoder(...)]: a fresh instance, its field
    initialisers, then the constructor's body. *)
Definition new
    (requestedFormats : list Html5QrcodeSupportedFormats)
    (verbose : bool) (logger : Logger)
    (wasmLocationOveride : option string) : M unit :=
  assign (fun _ => fieldInitializers) ;;
  constructor requestedFormats verbose logger wasmLocationOveride.

(** [await readBarcodesFromImageData(imageData, hints)]. *)
Definition awaitReadBarcodes (imageData : ImageData)
    (hints : option DecodeHints.t) : M (list ReadResult.t) :=
  fun rt =>
    let rt' :=
      {| this := this rt;
         zxingModuleOverrides := zxingModuleOverrides rt;
         logErrorCalls := logErrorCalls rt;
         engineCalls := engineCalls rt ++ [(imageData, hints)] |} in
    match readBarcodesFromImageData imageData hints with
    | Fulfilled result => (Returns result, rt')
    | Rejected reason => (Throws reason, rt')
    | Pending => (Stalls, rt')
    end.

(** The body of the [async] method [decode]. *)
Definition decode_body (canvas : Canvas.HTMLCanvasElement) :
    M QrcodeResult.t :=
  imageData <-
    match Canvas.getContext canvas "2d"
            {| Canvas.willReadFrequently := true |} with
    | None => throw (TypeError "ctx")
    | Some ctx =>
        liftCall (Canvas.getImageData ctx 0%Z 0%Z
                    (Canvas.width canvas) (Canvas.height canvas))
    end ;;
  this <- getThis ;;
  result <- awaitReadBarcodes imageData (decodeHints this) ;;
  match result with
  | [] => throw (ThrowString "No code found")
  | res :: _ =>
      let text := ReadResult.text res in
      format <- toHtml5QrcodeSupportedFormats (ReadResult.format res) ;;
      ret {| QrcodeResult.text := text;
             QrcodeResult.format := QrcodeResultFormat.create format;
             QrcodeResult.debugData := createDebugData |}
  end.

(** [decode]: the promise an [async] method returns settles as its body
    ends. *)
Definition decode (canvas : Canvas.HTMLCanvasElement) (rt : Runtime) :
    PromiseState QrcodeResult.t * Runtime :=
  let (o, rt') := decode_body canvas rt in (settle o, rt').

(** [decodeAsync]: a new promise whose executor resolves it with the
    promise of [decode], and rejects it with whatever that call throws. *)
Definition decodeAsync (canvas : Canvas.HTMLCanvasElement) :
    Runtime -> PromiseState QrcodeResult.t * Runtime :=
  newPromise
    (fun cell =>
       tryCatch
         (promise <- callAsync (decode canvas) ;;
          ret (resolve promise cell))
         (fun error => ret (reject error cell))).

(** Several calls of [decode], one after the other. *)
Fixpoint decodeEach (canvases : list Canvas.HTMLCanvasElement)
    (rt : Runtime) : Runtime :=
  match canvases with
  | [] => rt
  | canvas :: rest => decodeEach rest (snd (decode canvas rt))
  end.

End Adapter.

(** The path the engine is given for an asset, when overrides are
    registered. *)
Definition locateAsset (rt : Runtime) (path prefix : string) : option string :=
  match zxingModuleOverrides rt with
  | Some hook => Some (hook (this rt) path prefix)
  | None => None
  end.

(* ------------------------------------------------------------------ *)
(** ** Vocabulary of the statements *)

(** A string ends with exactly one separator: it ends with ["/"] and not
    with ["//"]. *)
Definition endsWithOneSeparator (s : string) : bool :=
  JsString.endsWith s "/" && negb (JsString.endsWith s "//").

(** The spec's translation of a requested list: the tag of every
    requested kind that the table has, in the order requested. *)
Definition requestedTags
    (table : JsMap.t Html5QrcodeSupportedFormats string)
    (requestedFormats : list Html5QrcodeSupportedFormats) : list string :=
  flat_map
    (fun kind =>
       match JsMap.get table kind with
       | Some tag => [tag]
       | None => []
       end)
    requestedFormats.

(** The spec's warnings for a requested list: one message for every
    requested kind that the table lacks, in the order requested. *)
Definition unsupportedWarnings
    (formatToString : Html5QrcodeSupportedFormats -> string)
    (table : JsMap.t Html5QrcodeSupportedFormats string)
    (receiver : Logger)
    (requestedFormats : list Html5QrcodeSupportedFormats) :
    list (Logger * string) :=
  flat_map
    (fun kind =>
       if JsMap.has table kind then []
       else [(receiver,
              formatToString kind ++ " is not supported byZXingWasmQrcodeShim")])
    requestedFormats.

(** The override path as the constructor stores it. *)
Definition storedOverride (path : string) : string :=
  if JsString.endsWith path "/" then path else path ++ "/".

(** Every requested kind is a key of the adapter's table. *)
Definition allInTable
    (requestedFormats : list Html5QrcodeSupportedFormats) : bool :=
  forallb (JsMap.has (formatMap fieldInitializers)) requestedFormats.

(** The errors of the spec's taxonomy, as the code throws them. *)
Definition NotFoundError : JsThrown := ThrowString "No code found".

Definition ConsistencyError (tag : string) : JsThrown :=
  ThrowString ("reverseFormatMap doesn't have " ++ tag).

Definition Html5QrcodeSupportedFormats_eq_dec
    (a b : Html5QrcodeSupportedFormats) : {a = b} + {a <> b}.
Proof. decide equality. apply Nat.eq_dec. Defined.

(** *** Inputs for the examples *)

Definition exampleRuntime : Runtime :=
  {| this := fieldInitializers;
     zxingModuleOverrides := None;
     logErrorCalls := [];
     engineCalls := [] |}.

(** Prints every member as the same word; the adapter only splices the
    result into a message. *)
Definition exampleFormatToString (kind : Html5QrcodeSupportedFormats) :
    string :=
  "format".

Definition exampleImage : ImageData :=
  {| data := [255; 255; 255; 255]%N; imageWidth := 1; imageHeight := 1 |}.

Definition exampleCanvas : Canvas.HTMLCanvasElement :=
  {| Canvas.width := 1;
     Canvas.height := 1;
     Canvas.getContext := fun _ _ =>
       Some {| Canvas.getImageData := fun _ _ _ _ => inr exampleImage |} |}.

(** An engine that reports the same results whatever it is given. *)
Definition exampleEngine (results : list ReadResult.t) :
    ImageData -> option DecodeHints.t -> PromiseState (list ReadResult.t) :=
  fun _ _ => Fulfilled results.

Definition exampleQr : ReadResult.t :=
  {| ReadResult.text := "hello"; ReadResult.format := "QRCode" |}.

Definition exampleEan : ReadResult.t :=
  {| ReadResult.text := "4006381333931"; ReadResult.format := "EAN-13" |}.

Definition exampleUnmapped : ReadResult.t :=
  {| ReadResult.text := "x"; ReadResult.format := "DataBar" |}.

(** A canvas that has no 2D context to give. *)
Definition exampleCanvasWithoutContext : Canvas.HTMLCanvasElement :=
  {| Canvas.width := 1;
     Canvas.height := 1;
     Canvas.getContext := fun _ _ => None |}.

(** A canvas whose pixels may not be read. *)
Definition exampleTaintedContext : Canvas.CanvasRenderingContext2D :=
  {| Canvas.getImageData := fun _ _ _ _ => inl (Foreign "SecurityError") |}.

Definition exampleTaintedCanvas : Canvas.HTMLCanvasElement :=
  {| Canvas.width := 1;
     Canvas.height := 1;
     Canvas.getContext := fun _ _ => Some exampleTaintedContext |}.

Definition exampleContext : Canvas.CanvasRenderingContext2D :=
  {| Canvas.getImageData := fun _ _ _ _ => inr exampleImage |}.

(** An engine whose promise rejects, and one whose promise never settles. *)
Definition exampleFailingEngine :
    ImageData -> option DecodeHints.t -> PromiseState (list ReadResult.t) :=
  fun _ _ => Rejected (Foreign "RuntimeError").

Definition exampleSilentEngine :
    ImageData -> option DecodeHints.t -> PromiseState (list ReadResult.t) :=
  fun _ _ => Pending.

(** The runtime after [new ZXingWasmQrcodeDecoder([QR_CODE], false, logger)]. *)
Definition exampleConstructed : Runtime :=
  snd (new exampleFormatToString [QR_CODE] false (LoggerRef 0) None
         exampleRuntime).

(* ================================================================== *)
(** * Properties *)

(** ** Strings *)

Module JsStringFacts.
Import JsString.

Lemma length_append (s t : string) :
  String.length (s ++ t) = String.length s + String.length t.
Proof. induction s as [|c s IH]; simpl; [reflexivity | now rewrite IH]. Qed.

Lemma append_assoc (s t u : string) : (s ++ t) ++ u = s ++ (t ++ u).
Proof. induction s as [|c s IH]; simpl; [reflexivity | now rewrite IH]. Qed.

Lemma substring_all (t : string) : substring 0 (String.length t) t = t.
Proof. induction t as [|c t IH]; simpl; [reflexivity | now rewrite IH]. Qed.

Lemma substring_skip (p t : string) :
  substring (String.length p) (String.length t) (p ++ t) = t.
Proof. induction p as [|c p IH]; simpl; [apply substring_all | exact IH]. Qed.

(** A string is the part before position [k] followed by the rest. *)
Lemma split_at (s : string) : forall k,
  k <= String.length s ->
  s = substring 0 k s ++ substring k (String.length s - k) s.
Proof.
  induction s as [|c s IH]; intros [|k] Hk; simpl in *.
  - reflexivity.
  - lia.
  - now rewrite substring_all.
  - f_equal. destruct k as [|k'].
    + specialize (IH 0 ltac:(lia)). simpl in IH.
      rewrite Nat.sub_0_r in IH. destruct s; simpl in *; exact IH.
    + apply (IH (S k')). lia.
Qed.

(** [endsWith] decides "is a suffix of". *)
Lemma endsWith_iff (s search : string) :
  endsWith s search = true <-> exists p, s = p ++ search.
Proof.
  unfold endsWith. split.
  - destruct (Nat.ltb_spec (String.length s) (String.length search)) as [Hlt|Hle];
      [discriminate|].
    intros E. apply String.eqb_eq in E.
    exists (substring 0 (String.length s - String.length search) s).
    pose proof (split_at s (String.length s - String.length search)
                  ltac:(lia)) as Hs.
    replace (String.length s - (String.length s - String.length search))
      with (String.length search) in Hs by lia.
    now rewrite E in Hs.
  - intros [p ->]. rewrite length_append.
    destruct (Nat.ltb_spec (String.length p + String.length search)
                (String.length search)) as [Hlt|Hle]; [lia|].
    replace (String.length p + String.length search - String.length search)
      with (String.length p) by lia.
    rewrite substring_skip. apply String.eqb_refl.
Qed.

Lemma append_cancel_r (t : string) : forall p q, p ++ t = q ++ t -> p = q.
Proof.
  induction p as [|c p IH]; intros [|d q] E; simpl in *.
  - reflexivity.
  - apply (f_equal String.length) in E. simpl in E.
    rewrite length_append in E. lia.
  - apply (f_equal String.length) in E. simpl in E.
    rewrite length_append in E. lia.
  - injection E as -> E. f_equal. now apply IH.
Qed.

Lemma endsWith_append (p search : string) :
  endsWith (p ++ search) search = true.
Proof. apply endsWith_iff. now exists p. Qed.

(** With one more separator at the end, ending in two is what ending in
    one was. *)
Lemma endsWith_two_separators (p : string) :
  endsWith (p ++ "/") "//" = endsWith p "/".
Proof.
  apply Bool.eq_true_iff_eq. rewrite !endsWith_iff. split.
  - intros [q E]. exists q.
    change "//" with ("/" ++ "/") in E. rewrite <- append_assoc in E.
    now apply append_cancel_r in E.
  - intros [q ->]. exists q. now rewrite append_assoc.
Qed.

End JsStringFacts.

(** ** Maps *)

Lemma SameValueZeroSpec_string : SameValueZeroSpec string.
Proof. exact String.eqb_eq. Qed.

Lemma SameValueZeroSpec_format : SameValueZeroSpec Html5QrcodeSupportedFormats.
Proof.
  intros a b. unfold same, SameValueZero_format. split.
  - destruct a, b; simpl; intros E; try reflexivity; try discriminate E.
    apply Nat.eqb_eq in E. now subst.
  - intros <-. destruct a; simpl; try reflexivity. apply Nat.eqb_refl.
Qed.

#[export] Existing Instances SameValueZeroSpec_string SameValueZeroSpec_format.

Module JsMapFacts.
Section OneMap.
Context {K V : Type} `{SameValueZeroSpec K}.

Lemma same_refl (k : K) : same k k = true.
Proof. now apply same_eq. Qed.

Lemma same_neq (a b : K) : a <> b -> same a b = false.
Proof.
  intros N. destruct (same a b) eqn:E; [|reflexivity].
  apply same_eq in E. contradiction.
Qed.

Lemma has_iff_get (m : JsMap.t K V) (k : K) :
  JsMap.has m k = true <-> exists v, JsMap.get m k = Some v.
Proof.
  unfold JsMap.has. destruct (JsMap.get m k) as [v|]; split.
  - intros _. now exists v.
  - reflexivity.
  - discriminate.
  - intros [v E]. discriminate E.
Qed.

Lemma has_false_iff_get (m : JsMap.t K V) (k : K) :
  JsMap.has m k = false <-> JsMap.get m k = None.
Proof.
  unfold JsMap.has. destruct (JsMap.get m k); split;
    try reflexivity; discriminate.
Qed.

Lemma get_In (m : JsMap.t K V) (k : K) (v : V) :
  JsMap.get m k = Some v -> In (k, v) m.
Proof.
  induction m as [|[k' v'] m IH]; simpl; [discriminate|].
  destruct (same k' k) eqn:E.
  - apply same_eq in E. intros [= ->]. subst. now left.
  - intros G. right. now apply IH.
Qed.

Lemma get_set_same (m : JsMap.t K V) (k : K) (v : V) :
  JsMap.get (JsMap.set m k v) k = Some v.
Proof.
  induction m as [|[k' v'] m IH]; simpl.
  - now rewrite same_refl.
  - destruct (same k' k) eqn:E; simpl; rewrite E; [reflexivity | exact IH].
Qed.

Lemma get_set_other (m : JsMap.t K V) (k k' : K) (v : V) :
  k <> k' -> JsMap.get (JsMap.set m k v) k' = JsMap.get m k'.
Proof.
  intros N. induction m as [|[k0 v0] m IH]; simpl.
  - now rewrite same_neq.
  - destruct (same k0 k) eqn:E; simpl.
    + apply same_eq in E. subst k0. now rewrite same_neq.
    + now rewrite IH.
Qed.
End OneMap.

Section Reversal.
Context {K V : Type} `{SameValueZeroSpec K} `{SameValueZeroSpec V}.

(** A value the table does not hold is left as it was in the result. *)
Lemma forEach_swap_absent (m : JsMap.t K V) : forall acc v,
  ~ In v (JsMap.values m) ->
  JsMap.get
    (JsMap.forEach m (fun value key result => JsMap.set result value key) acc)
    v
  = JsMap.get acc v.
Proof.
  unfold JsMap.forEach.
  induction m as [|[k0 v0] m IH]; intros acc v N; simpl in *.
  - reflexivity.
  - rewrite IH by tauto.
    apply get_set_other. intros ->. tauto.
Qed.

(** When no value occurs twice, every entry is found from its value. *)
Lemma forEach_swap_present (m : JsMap.t K V) : forall acc k v,
  NoDup (JsMap.values m) ->
  In (k, v) m ->
  JsMap.get
    (JsMap.forEach m (fun value key result => JsMap.set result value key) acc)
    v
  = Some k.
Proof.
  unfold JsMap.forEach.
  induction m as [|[k0 v0] m IH]; intros acc k v D I; simpl in *.
  - contradiction.
  - inversion D as [|? ? Hnotin D']; subst.
    destruct I as [[= -> ->]|I].
    + pose proof (forEach_swap_absent m (JsMap.set acc v k) v Hnotin) as A.
      unfold JsMap.forEach in A. cbn [fst snd] in A |- *. rewrite A.
      apply get_set_same.
    + now apply IH.
Qed.
End Reversal.
End JsMapFacts.

(** ** The format tables *)

(** The reverse table is built from whatever the forward table holds, and
    finds the key of every entry as long as no tag is used twice. *)
Lemma createReverseFormatMap_get
    (table : JsMap.t Html5QrcodeSupportedFormats string)
    (kind : Html5QrcodeSupportedFormats) (tag : string) :
  NoDup (JsMap.values table) ->
  JsMap.get table kind = Some tag ->
  JsMap.get (createReverseFormatMap table) tag = Some kind.
Proof.
  intros D G. unfold createReverseFormatMap.
  apply JsMapFacts.forEach_swap_present; [exact D|].
  now apply JsMapFacts.get_In.
Qed.

(** A tag the forward table does not use is not in the reverse table. *)
Lemma createReverseFormatMap_absent
    (table : JsMap.t Html5QrcodeSupportedFormats string) (tag : string) :
  ~ In tag (JsMap.values table) ->
  JsMap.has (createReverseFormatMap table) tag = false.
Proof.
  intros N. apply JsMapFacts.has_false_iff_get. unfold createReverseFormatMap.
  now rewrite JsMapFacts.forEach_swap_absent.
Qed.

Lemma formatMap_tags_distinct :
  NoDup (JsMap.values (formatMap fieldInitializers)).
Proof.
  cbv [fieldInitializers formatMap JsMap.values JsMap.ofEntries
       formatMapEntries fold_left JsMap.set JsMap.empty fst snd same
       SameValueZero_format Html5QrcodeSupportedFormats_eqb map].
  repeat (constructor; [simpl; intuition discriminate|]). constructor.
Qed.

(** ** Construction *)

Section Construction.
Variable formatToString : Html5QrcodeSupportedFormats -> string.

(** While [this.logger] is unassigned, the loop ends normally exactly
    when every requested kind is in the table, and otherwise stops at
    the first kind that is not, touching nothing. *)
Lemma createZXingFormats_loop_logger_unassigned
    (requestedFormats : list Html5QrcodeSupportedFormats) :
  forall zxingFormats rt,
    logger (this rt) = None ->
    createZXingFormats_loop formatToString requestedFormats zxingFormats rt =
      if forallb (JsMap.has (formatMap (this rt))) requestedFormats
      then (Returns (zxingFormats
                       ++ requestedTags (formatMap (this rt)) requestedFormats)%list,
            rt)
      else (Throws (TypeError "this.logger"), rt).
Proof.
  induction requestedFormats as [|kind rest IH]; intros acc rt L; simpl.
  - unfold ret. now rewrite app_nil_r.
  - unfold bind, getThis, JsMap.has.
    destruct (JsMap.get (formatMap (this rt)) kind) as [tag|]; simpl.
    + rewrite (IH _ _ L). now rewrite <- app_assoc.
    + rewrite L. reflexivity.
Qed.

(** With a logger assigned, the loop always ends normally: it returns
    the tags of the kinds the table has and logs one message for each
    kind it lacks. *)
Lemma createZXingFormats_loop_logger_assigned
    (requestedFormats : list Html5QrcodeSupportedFormats) :
  forall zxingFormats rt receiver,
    logger (this rt) = Some receiver ->
    createZXingFormats_loop formatToString requestedFormats zxingFormats rt =
      (Returns (zxingFormats
                  ++ requestedTags (formatMap (this rt)) requestedFormats)%list,
       {| this := this rt;
          zxingModuleOverrides := zxingModuleOverrides rt;
          logErrorCalls :=
            (logErrorCalls rt
               ++ unsupportedWarnings formatToString (formatMap (this rt))
                    receiver requestedFormats)%list;
          engineCalls := engineCalls rt |}).
Proof.
  induction requestedFormats as [|kind rest IH]; intros acc rt receiver L;
    simpl.
  - unfold ret. rewrite !app_nil_r. now destruct rt.
  - unfold bind, getThis, JsMap.has.
    destruct (JsMap.get (formatMap (this rt)) kind) as [tag|]; simpl.
    + rewrite (IH _ _ _ L). now rewrite <- app_assoc.
    + rewrite L. simpl. erewrite IH by (simpl; exact L). simpl.
      now rewrite <- app_assoc.
Qed.

Ltac run_new :=
  unfold new, constructor, createZXingFormats, bind, assign, getThis, ret,
    throw, setZXingModuleOverrides, with_this; simpl.

Variables (requestedFormats : list Html5QrcodeSupportedFormats)
          (verbose' : bool) (logger' : Logger)
          (wasmLocationOveride : option string) (rt : Runtime).

Ltac split_new :=
  unfold storedOverride, allInTable; run_new;
  destruct wasmLocationOveride as [path|]; simpl;
  [ destruct (JsString.endsWith path "/"); simpl | ];
  rewrite createZXingFormats_loop_logger_unassigned by reflexivity; simpl;
  match goal with
  | |- context [forallb ?f requestedFormats] =>
      destruct (forallb f requestedFormats)
  end;
  simpl; try reflexivity.

(** [new] ends normally exactly when every requested kind is in the
    table; when one is not, the read of [this.logger.logError] throws. *)
Lemma new_outcome :
  fst (new formatToString requestedFormats verbose' logger'
         wasmLocationOveride rt)
  = if allInTable requestedFormats then Returns tt
    else Throws (TypeError "this.logger").
Proof. split_new. Qed.

(** The five lemmas that follow describe the runtime [new] leaves behind,
    whether it returned or threw. *)
Lemma new_wasmLocationOverride :
  wasmLocationOverride
    (this (snd (new formatToString requestedFormats verbose' logger'
                  wasmLocationOveride rt)))
  = option_map storedOverride wasmLocationOveride.
Proof. split_new. Qed.

Lemma new_zxingModuleOverrides :
  zxingModuleOverrides
    (snd (new formatToString requestedFormats verbose' logger'
            wasmLocationOveride rt))
  = match wasmLocationOveride with
    | Some _ => Some locateFile
    | None => zxingModuleOverrides rt
    end.
Proof. split_new. Qed.

Lemma new_logErrorCalls :
  logErrorCalls
    (snd (new formatToString requestedFormats verbose' logger'
            wasmLocationOveride rt))
  = logErrorCalls rt.
Proof. split_new. Qed.


Lemma new_tables :
  formatMap
    (this (snd (new formatToString requestedFormats verbose' logger'
                  wasmLocationOveride rt)))
  = formatMap fieldInitializers
  /\ reverseFormatMap
       (this (snd (new formatToString requestedFormats verbose' logger'
                     wasmLocationOveride rt)))
     = reverseFormatMap fieldInitializers.
Proof. split_new; split; reflexivity. Qed.

(** When the constructor throws, the hints and the logger were never
    assigned. *)
Lemma new_unassigned :
  allInTable requestedFormats = false ->
  decodeHints
    (this (snd (new formatToString requestedFormats verbose' logger'
                  wasmLocationOveride rt)))
  = None
  /\ logger
       (this (snd (new formatToString requestedFormats verbose' logger'
                     wasmLocationOveride rt)))
     = None.
Proof. split_new; intros E; try discriminate E; split; reflexivity. Qed.

(** The fields the rest of the constructor assigns, once it got there. *)
Lemma new_assigned :
  allInTable requestedFormats = true ->
  decodeHints
    (this (snd (new formatToString requestedFormats verbose' logger'
                  wasmLocationOveride rt)))
  = Some {| DecodeHints.tryHarder := false;
            DecodeHints.formats :=
              requestedTags (formatMap fieldInitializers) requestedFormats;
            DecodeHints.maxNumberOfSymbols := 1 |}
  /\ verbose
       (this (snd (new formatToString requestedFormats verbose' logger'
                     wasmLocationOveride rt)))
     = Some verbose'
  /\ logger
       (this (snd (new formatToString requestedFormats verbose' logger'
                     wasmLocationOveride rt)))
     = Some logger'.
Proof. split_new; intros E; try discriminate E; repeat split. Qed.

End Construction.

(** A logger assigned before the translation would receive one message
    for every kind the table lacks, and the translation would go on. *)
Lemma createZXingFormats_logger_assigned
    (formatToString : Html5QrcodeSupportedFormats -> string)
    (requestedFormats : list Html5QrcodeSupportedFormats)
    (rt : Runtime) (receiver : Logger) :
  logger (this rt) = Some receiver ->
  fst (createZXingFormats formatToString requestedFormats rt)
    = Returns (requestedTags (formatMap (this rt)) requestedFormats)
  /\ logErrorCalls (snd (createZXingFormats formatToString requestedFormats rt))
     = (logErrorCalls rt
          ++ unsupportedWarnings formatToString (formatMap (this rt)) receiver
               requestedFormats)%list.
Proof.
  intros L. unfold createZXingFormats.
  rewrite (createZXingFormats_loop_logger_assigned formatToString
             requestedFormats [] rt receiver L).
  split; reflexivity.
Qed.

(** [OTHER_FORMAT] is not a key of the table. *)
Lemma formatMap_lacks_other (member : nat) :
  JsMap.has (formatMap fieldInitializers) (OTHER_FORMAT member) = false.
Proof. reflexivity. Qed.

Lemma formatMap_reverse_lookup
    (kind : Html5QrcodeSupportedFormats) (tag : string) :
  JsMap.get (formatMap fieldInitializers) kind = Some tag ->
  JsMap.get (reverseFormatMap fieldInitializers) tag = Some kind.
Proof.
  intros G.
  change (reverseFormatMap fieldInitializers)
    with (createReverseFormatMap (formatMap fieldInitializers)).
  apply createReverseFormatMap_get; [apply formatMap_tags_distinct | exact G].
Qed.

Lemma formatMap_injective
    (kind other : Html5QrcodeSupportedFormats) (tag : string) :
  JsMap.get (formatMap fieldInitializers) kind = Some tag ->
  JsMap.get (formatMap fieldInitializers) other = Some tag ->
  other = kind.
Proof.
  intros G Go. apply formatMap_reverse_lookup in G, Go. congruence.
Qed.

(** The tables of a constructed instance are those of the field
    initialisers, so the round trip holds on every instance. *)
Lemma constructed_reverse_lookup
    (formatToString : Html5QrcodeSupportedFormats -> string)
    (requestedFormats : list Html5QrcodeSupportedFormats)
    (verbose : bool) (logger : Logger) (wasmLocationOveride : option string)
    (rt : Runtime) (kind : Html5QrcodeSupportedFormats) (tag : string) :
  let instance :=
    this (snd (new formatToString requestedFormats verbose logger
                 wasmLocationOveride rt)) in
  JsMap.get (formatMap instance) kind = Some tag ->
  JsMap.get (reverseFormatMap instance) tag = Some kind.
Proof.
  cbv zeta.
  destruct (new_tables formatToString requestedFormats verbose logger
              wasmLocationOveride rt) as [-> ->].
  apply formatMap_reverse_lookup.
Qed.

(** The translation keeps multiplicities: a kind of the table and its tag
    occur equally often. *)
Lemma requestedTags_count
    (requestedFormats : list Html5QrcodeSupportedFormats)
    (kind : Html5QrcodeSupportedFormats) (tag : string) :
  JsMap.get (formatMap fieldInitializers) kind = Some tag ->
  count_occ string_dec
    (requestedTags (formatMap fieldInitializers) requestedFormats) tag
  = count_occ Html5QrcodeSupportedFormats_eq_dec requestedFormats kind.
Proof.
  intros G. unfold requestedTags.
  induction requestedFormats as [|k rest IH]; [reflexivity|].
  cbn [flat_map]. rewrite count_occ_app, IH.
  destruct (Html5QrcodeSupportedFormats_eq_dec k kind) as [->|N].
  - rewrite G.
    rewrite (count_occ_cons_eq _ [] (eq_refl tag)).
    rewrite (count_occ_cons_eq _ rest (eq_refl kind)).
    reflexivity.
  - rewrite (count_occ_cons_neq _ rest N).
    destruct (JsMap.get (formatMap fieldInitializers) k) as [t|] eqn:Gk;
      [|reflexivity].
    cbn [count_occ]. destruct (string_dec t tag) as [->|]; [|reflexivity].
    exfalso. apply N. exact (formatMap_injective kind k tag G Gk).
Qed.

(** The translation keeps the order: it is the requested list, filtered
    to the kinds of the table and mapped to their tags. *)
Lemma requestedTags_filter_map
    (table : JsMap.t Html5QrcodeSupportedFormats string)
    (requestedFormats : list Html5QrcodeSupportedFormats) :
  map Some (requestedTags table requestedFormats)
  = map (JsMap.get table) (filter (JsMap.has table) requestedFormats).
Proof.
  unfold requestedTags, JsMap.has.
  induction requestedFormats as [|k rest IH]; [reflexivity|].
  cbn [flat_map filter]. rewrite map_app, IH.
  destruct (JsMap.get table k) eqn:G; cbn [map app]; now rewrite ?G.
Qed.

(** ** Decoding *)

Section Decoding.
Variable readBarcodesFromImageData :
  ImageData -> option DecodeHints.t -> PromiseState (list ReadResult.t).

Ltac run_decode :=
  unfold decode, decode_body, awaitReadBarcodes,
    toHtml5QrcodeSupportedFormats, liftCall, bind, getThis, ret, throw.

Ltac split_decode :=
  repeat match goal with
         | |- context [match ?x with _ => _ end] =>
             lazymatch x with
             | context [match _ with _ => _ end] => fail
             | _ => destruct x; simpl
             end
         end.

(** [decode] assigns no field, registers nothing and logs nothing. *)
Lemma decode_frame (canvas : Canvas.HTMLCanvasElement) (rt : Runtime) :
  let rt' := snd (decode readBarcodesFromImageData canvas rt) in
  this rt' = this rt
  /\ zxingModuleOverrides rt' = zxingModuleOverrides rt
  /\ logErrorCalls rt' = logErrorCalls rt.
Proof. cbv zeta. run_decode. split_decode; repeat split. Qed.

(** [decode] calls the engine at most once, with the stored hints. *)
Lemma decode_engineCalls (canvas : Canvas.HTMLCanvasElement) (rt : Runtime) :
  let rt' := snd (decode readBarcodesFromImageData canvas rt) in
  engineCalls rt' = engineCalls rt
  \/ exists imageData,
       engineCalls rt'
       = (engineCalls rt ++ [(imageData, decodeHints (this rt))])%list.
Proof. cbv zeta. run_decode. split_decode; eauto. Qed.

(** However many calls of [decode] are made, the engine is handed the
    hints that were stored before the first of them. *)
Lemma decodeEach_engineCalls (canvases : list Canvas.HTMLCanvasElement) :
  forall rt,
  exists calls,
    engineCalls (decodeEach readBarcodesFromImageData canvases rt)
    = (engineCalls rt ++ calls)%list
    /\ Forall (fun call => snd call = decodeHints (this rt)) calls.
Proof.
  induction canvases as [|canvas rest IH]; intros rt; simpl.
  - exists []. split; [now rewrite app_nil_r | constructor].
  - destruct (IH (snd (decode readBarcodesFromImageData canvas rt)))
      as (calls & E & F).
    destruct (decode_frame canvas rt) as (T & _ & _). rewrite T in F.
    destruct (decode_engineCalls canvas rt) as [E0|[imageData E0]];
      rewrite E0 in E.
    + now exists calls.
    + exists ((imageData, decodeHints (this rt)) :: calls).
      split; [now rewrite <- app_assoc in E | now constructor].
Qed.

Lemma decodeEach_frame (canvases : list Canvas.HTMLCanvasElement) :
  forall rt,
    let rt' := decodeEach readBarcodesFromImageData canvases rt in
    this rt' = this rt
    /\ zxingModuleOverrides rt' = zxingModuleOverrides rt
    /\ logErrorCalls rt' = logErrorCalls rt.
Proof.
  induction canvases as [|canvas rest IH]; intros rt; simpl.
  - repeat split.
  - destruct (IH (snd (decode readBarcodesFromImageData canvas rt)))
      as (T & O & L).
    destruct (decode_frame canvas rt) as (T' & O' & L').
    repeat split; congruence.
Qed.

Variables (canvas : Canvas.HTMLCanvasElement)
          (ctx : Canvas.CanvasRenderingContext2D)
          (imageData : ImageData) (rt : Runtime).

Hypothesis canvas_context :
  Canvas.getContext canvas "2d" {| Canvas.willReadFrequently := true |}
  = Some ctx.
Hypothesis canvas_pixels :
  Canvas.getImageData ctx 0%Z 0%Z (Canvas.width canvas) (Canvas.height canvas)
  = inr imageData.

(** Once the pixels are read, [decode] is the engine's answer put
    through the first-result rule, and the engine was called once with
    the stored hints. *)
Lemma decode_run :
  decode readBarcodesFromImageData canvas rt
  = (match readBarcodesFromImageData imageData (decodeHints (this rt)) with
     | Pending => Pending
     | Rejected reason => Rejected reason
     | Fulfilled [] => Rejected NotFoundError
     | Fulfilled (res :: _) =>
         match JsMap.get (reverseFormatMap (this rt)) (ReadResult.format res) with
         | None => Rejected (ConsistencyError (ReadResult.format res))
         | Some kind =>
             Fulfilled
               {| QrcodeResult.text := ReadResult.text res;
                  QrcodeResult.format := QrcodeResultFormat.create kind;
                  QrcodeResult.debugData :=
                    {| QrcodeResultDebugData.decoderName := "zxing-wasm" |} |}
         end
     end,
     {| this := this rt;
        zxingModuleOverrides := zxingModuleOverrides rt;
        logErrorCalls := logErrorCalls rt;
        engineCalls :=
          (engineCalls rt ++ [(imageData, decodeHints (this rt))])%list |}).
Proof.
  run_decode. rewrite canvas_context, canvas_pixels. cbv beta iota zeta.
  destruct (readBarcodesFromImageData imageData (decodeHints (this rt)))
    as [|[|res rest]|reason]; try reflexivity.
  cbn [this].
  destruct (JsMap.get (reverseFormatMap (this rt)) (ReadResult.format res));
    reflexivity.
Qed.

End Decoding.

Lemma ConsistencyError_injective (tag tag' : string) :
  ConsistencyError tag = ConsistencyError tag' -> tag = tag'.
Proof. unfold ConsistencyError. simpl. intros E. now inversion E. Qed.

Lemma NotFoundError_not_ConsistencyError (tag : string) :
  NotFoundError <> ConsistencyError tag.
Proof. unfold NotFoundError, ConsistencyError. simpl. discriminate. Qed.

(* ================================================================== *)
(** * The properties of the specification *)

(** C1.  When the engine returns a non-empty list and the tag of its
    first result is in the reverse table, [decode] resolves with the text
    of that first result, the symbology the reverse table gives for its
    tag, and the debug data naming this adapter's engine; the results
    after the first do not influence anything [decode] does. *)
Theorem decode_first_result
    (engine : ImageData -> option DecodeHints.t -> PromiseState (list ReadResult.t))
    (canvas : Canvas.HTMLCanvasElement) (ctx : Canvas.CanvasRenderingContext2D)
    (imageData : ImageData) (rt : Runtime)
    (res : ReadResult.t) (rest : list ReadResult.t) :
  Canvas.getContext canvas "2d" {| Canvas.willReadFrequently := true |}
    = Some ctx ->
  Canvas.getImageData ctx 0%Z 0%Z (Canvas.width canvas) (Canvas.height canvas)
    = inr imageData ->
  engine imageData (decodeHints (this rt)) = Fulfilled (res :: rest) ->
  JsMap.has (reverseFormatMap (this rt)) (ReadResult.format res) = true ->
  (exists kind,
     JsMap.get (reverseFormatMap (this rt)) (ReadResult.format res) = Some kind
     /\ fst (decode engine canvas rt)
        = Fulfilled
            {| QrcodeResult.text := ReadResult.text res;
               QrcodeResult.format := QrcodeResultFormat.create kind;
               QrcodeResult.debugData :=
                 {| QrcodeResultDebugData.decoderName := "zxing-wasm" |} |})
  /\ (forall engine' rest',
        engine' imageData (decodeHints (this rt)) = Fulfilled (res :: rest') ->
        decode engine' canvas rt = decode engine canvas rt).
Proof.
  intros Hctx Hpix Hres Hhas. split.
  - apply JsMapFacts.has_iff_get in Hhas. destruct Hhas as [kind Hkind].
    exists kind. split; [exact Hkind|].
    rewrite (decode_run engine canvas ctx imageData rt Hctx Hpix).
    now rewrite Hres, Hkind.
  - intros engine' rest' Hres'.
    rewrite (decode_run engine canvas ctx imageData rt Hctx Hpix).
    rewrite (decode_run engine' canvas ctx imageData rt Hctx Hpix).
    now rewrite Hres, Hres'.
Qed.

Lemma decode_first_result_witness :
  (exists kind,
     JsMap.get (reverseFormatMap (this exampleConstructed)) "QRCode" = Some kind
     /\ fst (decode (exampleEngine [exampleQr; exampleEan]) exampleCanvas
               exampleConstructed)
        = Fulfilled
            {| QrcodeResult.text := "hello";
               QrcodeResult.format := QrcodeResultFormat.create kind;
               QrcodeResult.debugData :=
                 {| QrcodeResultDebugData.decoderName := "zxing-wasm" |} |})
  /\ (forall engine' rest',
        engine' exampleImage (decodeHints (this exampleConstructed))
          = Fulfilled (exampleQr :: rest') ->
        decode engine' exampleCanvas exampleConstructed
        = decode (exampleEngine [exampleQr; exampleEan]) exampleCanvas
            exampleConstructed).
Proof.
  apply (decode_first_result (exampleEngine [exampleQr; exampleEan])
           exampleCanvas
           {| Canvas.getImageData := fun _ _ _ _ => inr exampleImage |}
           exampleImage exampleConstructed exampleQr [exampleEan]);
    reflexivity.
Defined.

(** The example of C1, run: the first of two results is returned. *)
Example decode_two_codes_run :
  fst (decode (exampleEngine [exampleQr; exampleEan]) exampleCanvas
         exampleConstructed)
  = Fulfilled
      {| QrcodeResult.text := "hello";
         QrcodeResult.format := QrcodeResultFormat.create QR_CODE;
         QrcodeResult.debugData :=
           {| QrcodeResultDebugData.decoderName := "zxing-wasm" |} |}.
Proof. reflexivity. Qed.

(** C2.  When the engine returns the empty list, [decode] rejects with
    the not-found error, the string "No code found"; the engine has been
    called once and no more, and the value differs from the
    consistency error of every tag. *)
Theorem decode_nothing_found
    (engine : ImageData -> option DecodeHints.t -> PromiseState (list ReadResult.t))
    (canvas : Canvas.HTMLCanvasElement) (ctx : Canvas.CanvasRenderingContext2D)
    (imageData : ImageData) (rt : Runtime) :
  Canvas.getContext canvas "2d" {| Canvas.willReadFrequently := true |}
    = Some ctx ->
  Canvas.getImageData ctx 0%Z 0%Z (Canvas.width canvas) (Canvas.height canvas)
    = inr imageData ->
  engine imageData (decodeHints (this rt)) = Fulfilled [] ->
  fst (decode engine canvas rt) = Rejected (ThrowString "No code found")
  /\ engineCalls (snd (decode engine canvas rt))
     = (engineCalls rt ++ [(imageData, decodeHints (this rt))])%list
  /\ (forall tag, ThrowString "No code found" <> ConsistencyError tag).
Proof.
  intros Hctx Hpix Hres.
  rewrite (decode_run engine canvas ctx imageData rt Hctx Hpix), Hres.
  repeat split. exact NotFoundError_not_ConsistencyError.
Qed.

Lemma decode_nothing_found_witness :
  fst (decode (exampleEngine []) exampleCanvas exampleConstructed)
    = Rejected (ThrowString "No code found")
  /\ engineCalls (snd (decode (exampleEngine []) exampleCanvas exampleConstructed))
     = (engineCalls exampleConstructed
          ++ [(exampleImage, decodeHints (this exampleConstructed))])%list
  /\ (forall tag, ThrowString "No code found" <> ConsistencyError tag).
Proof.
  apply (decode_nothing_found (exampleEngine []) exampleCanvas
           {| Canvas.getImageData := fun _ _ _ _ => inr exampleImage |}
           exampleImage exampleConstructed);
    reflexivity.
Defined.

(** C3.  When the tag of the engine's first result is not in the reverse
    table, [decode] rejects with the consistency error of that tag, a
    message from which the tag can be read back; it does not resolve with
    any result. *)
Theorem decode_unmapped_tag
    (engine : ImageData -> option DecodeHints.t -> PromiseState (list ReadResult.t))
    (canvas : Canvas.HTMLCanvasElement) (ctx : Canvas.CanvasRenderingContext2D)
    (imageData : ImageData) (rt : Runtime)
    (res : ReadResult.t) (rest : list ReadResult.t) :
  Canvas.getContext canvas "2d" {| Canvas.willReadFrequently := true |}
    = Some ctx ->
  Canvas.getImageData ctx 0%Z 0%Z (Canvas.width canvas) (Canvas.height canvas)
    = inr imageData ->
  engine imageData (decodeHints (this rt)) = Fulfilled (res :: rest) ->
  JsMap.has (reverseFormatMap (this rt)) (ReadResult.format res) = false ->
  fst (decode engine canvas rt)
    = Rejected
        (ThrowString ("reverseFormatMap doesn't have " ++ ReadResult.format res))
  /\ (forall tag,
        ConsistencyError tag = ConsistencyError (ReadResult.format res) ->
        tag = ReadResult.format res)
  /\ (forall result, fst (decode engine canvas rt) <> Fulfilled result).
Proof.
  intros Hctx Hpix Hres Hhas.
  apply JsMapFacts.has_false_iff_get in Hhas.
  rewrite (decode_run engine canvas ctx imageData rt Hctx Hpix), Hres, Hhas.
  repeat split.
  - intros tag. apply ConsistencyError_injective.
  - discriminate.
Qed.

Lemma decode_unmapped_tag_witness :
  fst (decode (exampleEngine [exampleUnmapped; exampleQr]) exampleCanvas
         exampleConstructed)
    = Rejected (ThrowString "reverseFormatMap doesn't have DataBar")
  /\ (forall tag,
        ConsistencyError tag = ConsistencyError "DataBar" -> tag = "DataBar")
  /\ (forall result,
        fst (decode (exampleEngine [exampleUnmapped; exampleQr]) exampleCanvas
               exampleConstructed)
        <> Fulfilled result).
Proof.
  apply (decode_unmapped_tag (exampleEngine [exampleUnmapped; exampleQr])
           exampleCanvas
           {| Canvas.getImageData := fun _ _ _ _ => inr exampleImage |}
           exampleImage exampleConstructed exampleUnmapped [exampleQr]);
    reflexivity.
Defined.

(** C4.  Every kind of the forward table is found again from its tag in
    the reverse table, and no other kind of the table has that tag: the
    round trip is the identity and the forward table is injective. *)
Theorem formatMap_round_trip
    (kind : Html5QrcodeSupportedFormats) (tag : string) :
  JsMap.get (formatMap fieldInitializers) kind = Some tag ->
  JsMap.get (reverseFormatMap fieldInitializers) tag = Some kind
  /\ (forall other,
        JsMap.get (formatMap fieldInitializers) other = Some tag ->
        other = kind).
Proof.
  intros G. split.
  - now apply formatMap_reverse_lookup.
  - intros other Go. exact (formatMap_injective kind other tag G Go).
Qed.

Lemma formatMap_round_trip_witness :
  JsMap.get (formatMap fieldInitializers) EAN_13 = Some "EAN-13"
  /\ JsMap.get (reverseFormatMap fieldInitializers) "EAN-13" = Some EAN_13
  /\ (forall other,
        JsMap.get (formatMap fieldInitializers) other = Some "EAN-13" ->
        other = EAN_13).
Proof.
  split; [reflexivity|].
  apply (formatMap_round_trip EAN_13 "EAN-13"). reflexivity.
Defined.

(** C5 (what the code does instead).  The constructor translates the
    requested list before it assigns [this.logger].  A requested kind
    that the table lacks therefore makes the read of
    [this.logger.logError] throw a [TypeError]: no warning reaches the
    logger, the hints are never assembled and construction does not
    continue. *)
Theorem new_unsupported_format_throws
    (formatToString : Html5QrcodeSupportedFormats -> string)
    (before after : list Html5QrcodeSupportedFormats) (member : nat)
    (verbose : bool) (logger : Logger) (wasmLocationOveride : option string)
    (rt : Runtime) :
  let run :=
    new formatToString (before ++ OTHER_FORMAT member :: after) verbose logger
      wasmLocationOveride rt in
  fst run = Throws (TypeError "this.logger")
  /\ logErrorCalls (snd run) = logErrorCalls rt
  /\ decodeHints (this (snd run)) = None.
Proof.
  cbv zeta.
  assert (U : forallb (JsMap.has (formatMap fieldInitializers))
                (before ++ OTHER_FORMAT member :: after) = false).
  { rewrite forallb_app. cbn [forallb].
    rewrite formatMap_lacks_other. cbn [andb]. apply andb_false_r. }
  rewrite new_outcome, new_logErrorCalls. unfold allInTable. rewrite U.
  repeat split. now apply new_unassigned.
Qed.

(** The same, run on [QR_CODE] followed by a kind the table lacks. *)
Example new_unsupported_format_run :
  new exampleFormatToString [QR_CODE; OTHER_FORMAT 0] false (LoggerRef 0) None
    exampleRuntime
  = (Throws (TypeError "this.logger"), exampleRuntime).
Proof. reflexivity. Qed.

(** C6 (as stated, refuted).  A supplied path that already ends with two
    separators is stored as it is, so the stored path does not end with
    exactly one. *)
Lemma override_two_separators_kept :
  wasmLocationOverride
    (this (snd (new exampleFormatToString [QR_CODE] false (LoggerRef 0)
                  (Some "assets//") exampleRuntime)))
    = Some "assets//"
  /\ endsWithOneSeparator "assets//" = false.
Proof. split; reflexivity. Qed.

(** C6 (amended).  With an override path supplied, the stored path is the
    supplied one, followed by a separator if it did not end with one.  It
    always ends with a separator, and with exactly one unless the
    supplied path already ended with two. *)
Theorem override_ends_with_separator
    (formatToString : Html5QrcodeSupportedFormats -> string)
    (requestedFormats : list Html5QrcodeSupportedFormats)
    (verbose : bool) (logger : Logger) (path : string) (rt : Runtime) :
  exists stored,
    wasmLocationOverride
      (this (snd (new formatToString requestedFormats verbose logger
                    (Some path) rt)))
      = Some stored
    /\ stored = (if JsString.endsWith path "/" then path else path ++ "/")
    /\ JsString.endsWith stored "/" = true
    /\ endsWithOneSeparator stored = negb (JsString.endsWith path "//").
Proof.
  rewrite new_wasmLocationOverride. cbn [option_map]. unfold storedOverride.
  eexists. split; [reflexivity|]. split; [reflexivity|].
  unfold endsWithOneSeparator.
  destruct (JsString.endsWith path "/") eqn:E.
  - rewrite E. split; reflexivity.
  - rewrite JsStringFacts.endsWith_append,
      JsStringFacts.endsWith_two_separators, E.
    split; [reflexivity|]. cbn [andb negb].
    destruct (JsString.endsWith path "//") eqn:E2; [|reflexivity].
    apply JsStringFacts.endsWith_iff in E2. destruct E2 as [p ->].
    assert (T : JsString.endsWith (p ++ "//") "/" = true).
    { apply JsStringFacts.endsWith_iff. exists (p ++ "/").
      now rewrite JsStringFacts.append_assoc. }
    congruence.
Qed.

(** C7.  After a construction with an override path, the registered
    resolver sends every request for a name ending in ".wasm" to the
    stored override path followed by the name, and every other request to
    the default prefix followed by the name. *)
Theorem locateFile_registered
    (formatToString : Html5QrcodeSupportedFormats -> string)
    (requestedFormats : list Html5QrcodeSupportedFormats)
    (verbose : bool) (logger : Logger) (override : string) (rt : Runtime)
    (path prefix : string) :
  locateAsset
    (snd (new formatToString requestedFormats verbose logger (Some override) rt))
    path prefix
  = Some (if JsString.endsWith path ".wasm"
          then (if JsString.endsWith override "/" then override
                else override ++ "/") ++ path
          else prefix ++ path).
Proof.
  unfold locateAsset.
  rewrite new_zxingModuleOverrides. unfold locateFile.
  rewrite new_wasmLocationOverride. reflexivity.
Qed.

(** C8.  A construction that completes leaves hints with try-harder off,
    at most one result, and the translated tags as enabled formats.
    However many calls of [decode] follow, the instance (tables and hints
    included) and the registered overrides stay as construction left
    them, and every call hands the engine those same hints. *)
Theorem hints_assembled_and_kept
    (formatToString : Html5QrcodeSupportedFormats -> string)
    (engine : ImageData -> option DecodeHints.t -> PromiseState (list ReadResult.t))
    (requestedFormats : list Html5QrcodeSupportedFormats)
    (verbose : bool) (logger : Logger) (wasmLocationOveride : option string)
    (rt : Runtime) :
  fst (new formatToString requestedFormats verbose logger wasmLocationOveride rt)
    = Returns tt ->
  let constructed :=
    snd (new formatToString requestedFormats verbose logger
           wasmLocationOveride rt) in
  decodeHints (this constructed)
    = Some {| DecodeHints.tryHarder := false;
              DecodeHints.formats :=
                requestedTags (formatMap (this constructed)) requestedFormats;
              DecodeHints.maxNumberOfSymbols := 1 |}
  /\ (forall canvases,
        let later := decodeEach engine canvases constructed in
        this later = this constructed
        /\ zxingModuleOverrides later = zxingModuleOverrides constructed
        /\ exists calls,
             engineCalls later = (engineCalls constructed ++ calls)%list
             /\ Forall (fun call => snd call = decodeHints (this constructed))
                  calls).
Proof.
  intros R. cbv zeta. rewrite new_outcome in R. unfold allInTable in R.
  destruct (forallb (JsMap.has (formatMap fieldInitializers)) requestedFormats)
    eqn:S; [|discriminate R].
  split.
  - destruct (new_tables formatToString requestedFormats verbose logger
                wasmLocationOveride rt) as [-> _].
    now apply new_assigned.
  - intros canvases.
    destruct (decodeEach_frame engine canvases
                (snd (new formatToString requestedFormats verbose logger
                        wasmLocationOveride rt))) as (T & O & _).
    split; [exact T|]. split; [exact O|].
    apply decodeEach_engineCalls.
Qed.

Lemma hints_assembled_and_kept_witness :
  let constructed :=
    snd (new exampleFormatToString [EAN_13; QR_CODE] false (LoggerRef 0)
           (Some "assets") exampleRuntime) in
  decodeHints (this constructed)
    = Some {| DecodeHints.tryHarder := false;
              DecodeHints.formats := ["EAN-13"; "QRCode"];
              DecodeHints.maxNumberOfSymbols := 1 |}
  /\ (forall canvases,
        let later := decodeEach (exampleEngine [exampleQr]) canvases constructed in
        this later = this constructed
        /\ zxingModuleOverrides later = zxingModuleOverrides constructed
        /\ exists calls,
             engineCalls later = (engineCalls constructed ++ calls)%list
             /\ Forall (fun call => snd call = decodeHints (this constructed))
                  calls).
Proof.
  apply (hints_assembled_and_kept exampleFormatToString
           (exampleEngine [exampleQr]) [EAN_13; QR_CODE] false (LoggerRef 0)
           (Some "assets") exampleRuntime).
  reflexivity.
Defined.

(** C9.  Constructed with an empty requested list, the adapter logs
    nothing, completes, and stores hints whose enabled formats are the
    empty list. *)
Theorem new_empty_request
    (formatToString : Html5QrcodeSupportedFormats -> string)
    (verbose : bool) (logger : Logger) (wasmLocationOveride : option string)
    (rt : Runtime) :
  let run := new formatToString [] verbose logger wasmLocationOveride rt in
  fst run = Returns tt
  /\ logErrorCalls (snd run) = logErrorCalls rt
  /\ decodeHints (this (snd run))
     = Some {| DecodeHints.tryHarder := false;
               DecodeHints.formats := [];
               DecodeHints.maxNumberOfSymbols := 1 |}.
Proof.
  cbv zeta. rewrite new_outcome, new_logErrorCalls.
  repeat split.
  now apply (new_assigned formatToString [] verbose logger wasmLocationOveride rt).
Qed.

(** C10.  In the hints of a completed construction, the tag of a kind of
    the table is enabled as many times as the kind was requested:
    repeated requests are kept, not merged. *)
Theorem duplicates_kept
    (formatToString : Html5QrcodeSupportedFormats -> string)
    (requestedFormats : list Html5QrcodeSupportedFormats)
    (verbose : bool) (logger : Logger) (wasmLocationOveride : option string)
    (rt : Runtime) (kind : Html5QrcodeSupportedFormats) (tag : string) :
  fst (new formatToString requestedFormats verbose logger wasmLocationOveride rt)
    = Returns tt ->
  JsMap.get (formatMap fieldInitializers) kind = Some tag ->
  exists hints,
    decodeHints
      (this (snd (new formatToString requestedFormats verbose logger
                    wasmLocationOveride rt)))
      = Some hints
    /\ count_occ string_dec (DecodeHints.formats hints) tag
       = count_occ Html5QrcodeSupportedFormats_eq_dec requestedFormats kind.
Proof.
  intros R G. rewrite new_outcome in R. unfold allInTable in R.
  destruct (forallb (JsMap.has (formatMap fieldInitializers)) requestedFormats)
    eqn:S; [|discriminate R].
  destruct (new_assigned formatToString requestedFormats verbose logger
              wasmLocationOveride rt S) as (H & _).
  eexists. split; [exact H|].
  cbn [DecodeHints.formats]. now apply requestedTags_count.
Qed.

Lemma duplicates_kept_witness :
  exists hints,
    decodeHints
      (this (snd (new exampleFormatToString [QR_CODE; EAN_13; QR_CODE] false
                    (LoggerRef 0) None exampleRuntime)))
      = Some hints
    /\ count_occ string_dec (DecodeHints.formats hints) "QRCode"
       = count_occ Html5QrcodeSupportedFormats_eq_dec
           [QR_CODE; EAN_13; QR_CODE] QR_CODE.
Proof.
  apply (duplicates_kept exampleFormatToString [QR_CODE; EAN_13; QR_CODE]
           false (LoggerRef 0) None exampleRuntime QR_CODE "QRCode");
    reflexivity.
Defined.

(* ================================================================== *)
(** * Further properties of the code *)

(** ** [decode] and [decodeAsync] on every path *)

Ltac unfold_decode :=
  unfold decode, decode_body, awaitReadBarcodes,
    toHtml5QrcodeSupportedFormats, liftCall, bind, getThis, ret, throw.

(** [decode], case by case, with no assumption on the canvas. *)
Lemma decode_cases
    (engine : ImageData -> option DecodeHints.t -> PromiseState (list ReadResult.t))
    (canvas : Canvas.HTMLCanvasElement) (rt : Runtime) :
  decode engine canvas rt
  = match Canvas.getContext canvas "2d"
            {| Canvas.willReadFrequently := true |} with
    | None => (Rejected (TypeError "ctx"), rt)
    | Some ctx =>
        match Canvas.getImageData ctx 0%Z 0%Z
                (Canvas.width canvas) (Canvas.height canvas) with
        | inl error => (Rejected error, rt)
        | inr imageData =>
            (match engine imageData (decodeHints (this rt)) with
             | Pending => Pending
             | Rejected reason => Rejected reason
             | Fulfilled [] => Rejected NotFoundError
             | Fulfilled (res :: _) =>
                 match JsMap.get (reverseFormatMap (this rt))
                         (ReadResult.format res) with
                 | None => Rejected (ConsistencyError (ReadResult.format res))
                 | Some kind =>
                     Fulfilled
                       {| QrcodeResult.text := ReadResult.text res;
                          QrcodeResult.format := QrcodeResultFormat.create kind;
                          QrcodeResult.debugData := createDebugData |}
                 end
             end,
             {| this := this rt;
                zxingModuleOverrides := zxingModuleOverrides rt;
                logErrorCalls := logErrorCalls rt;
                engineCalls :=
                  (engineCalls rt ++ [(imageData, decodeHints (this rt))])%list |})
        end
    end.
Proof.
  destruct (Canvas.getContext canvas "2d" {| Canvas.willReadFrequently := true |})
    as [ctx|] eqn:Hctx.
  - destruct (Canvas.getImageData ctx 0%Z 0%Z (Canvas.width canvas)
                (Canvas.height canvas)) as [error|imageData] eqn:Hpix.
    + unfold_decode. now rewrite Hctx, Hpix.
    + exact (decode_run engine canvas ctx imageData rt Hctx Hpix).
  - unfold_decode. now rewrite Hctx.
Qed.

(** X1.  A canvas that gives no 2D context makes [decode] reject with a
    [TypeError]; the engine is not called and the runtime is left as it
    was. *)
Theorem decode_without_context
    (engine : ImageData -> option DecodeHints.t -> PromiseState (list ReadResult.t))
    (canvas : Canvas.HTMLCanvasElement) (rt : Runtime) :
  Canvas.getContext canvas "2d" {| Canvas.willReadFrequently := true |} = None ->
  decode engine canvas rt = (Rejected (TypeError "ctx"), rt).
Proof. intros Hctx. now rewrite decode_cases, Hctx. Qed.

Lemma decode_without_context_witness :
  decode (exampleEngine [exampleQr]) exampleCanvasWithoutContext
    exampleConstructed
  = (Rejected (TypeError "ctx"), exampleConstructed).
Proof.
  apply (decode_without_context (exampleEngine [exampleQr])
           exampleCanvasWithoutContext exampleConstructed).
  reflexivity.
Defined.

(** X2.  When reading the pixels throws, [decode] rejects with what was
    thrown; the engine is not called and the runtime is left as it was. *)
Theorem decode_pixels_unreadable
    (engine : ImageData -> option DecodeHints.t -> PromiseState (list ReadResult.t))
    (canvas : Canvas.HTMLCanvasElement) (ctx : Canvas.CanvasRenderingContext2D)
    (error : JsThrown) (rt : Runtime) :
  Canvas.getContext canvas "2d" {| Canvas.willReadFrequently := true |}
    = Some ctx ->
  Canvas.getImageData ctx 0%Z 0%Z (Canvas.width canvas) (Canvas.height canvas)
    = inl error ->
  decode engine canvas rt = (Rejected error, rt).
Proof. intros Hctx Hpix. now rewrite decode_cases, Hctx, Hpix. Qed.

Lemma decode_pixels_unreadable_witness :
  decode (exampleEngine [exampleQr]) exampleTaintedCanvas exampleConstructed
  = (Rejected (Foreign "SecurityError"), exampleConstructed).
Proof.
  apply (decode_pixels_unreadable (exampleEngine [exampleQr])
           exampleTaintedCanvas exampleTaintedContext (Foreign "SecurityError")
           exampleConstructed);
    reflexivity.
Defined.

(** X3.  When the engine's promise rejects, [decode] rejects with the
    same reason, after that one call of the engine: the failure is
    neither caught nor retried. *)
Theorem decode_engine_rejects
    (engine : ImageData -> option DecodeHints.t -> PromiseState (list ReadResult.t))
    (canvas : Canvas.HTMLCanvasElement) (ctx : Canvas.CanvasRenderingContext2D)
    (imageData : ImageData) (reason : JsThrown) (rt : Runtime) :
  Canvas.getContext canvas "2d" {| Canvas.willReadFrequently := true |}
    = Some ctx ->
  Canvas.getImageData ctx 0%Z 0%Z (Canvas.width canvas) (Canvas.height canvas)
    = inr imageData ->
  engine imageData (decodeHints (this rt)) = Rejected reason ->
  fst (decode engine canvas rt) = Rejected reason
  /\ engineCalls (snd (decode engine canvas rt))
     = (engineCalls rt ++ [(imageData, decodeHints (this rt))])%list.
Proof.
  intros Hctx Hpix Hres. rewrite decode_cases, Hctx, Hpix, Hres.
  split; reflexivity.
Qed.

Lemma decode_engine_rejects_witness :
  fst (decode exampleFailingEngine exampleCanvas exampleConstructed)
    = Rejected (Foreign "RuntimeError")
  /\ engineCalls (snd (decode exampleFailingEngine exampleCanvas
                         exampleConstructed))
     = (engineCalls exampleConstructed
          ++ [(exampleImage, decodeHints (this exampleConstructed))])%list.
Proof.
  apply (decode_engine_rejects exampleFailingEngine exampleCanvas
           exampleContext exampleImage (Foreign "RuntimeError")
           exampleConstructed);
    reflexivity.
Defined.

(** X4.  When the engine's promise never settles, neither does the
    promise of [decode]: there is no timeout, and the engine has been
    called once. *)
Theorem decode_engine_silent
    (engine : ImageData -> option DecodeHints.t -> PromiseState (list ReadResult.t))
    (canvas : Canvas.HTMLCanvasElement) (ctx : Canvas.CanvasRenderingContext2D)
    (imageData : ImageData) (rt : Runtime) :
  Canvas.getContext canvas "2d" {| Canvas.willReadFrequently := true |}
    = Some ctx ->
  Canvas.getImageData ctx 0%Z 0%Z (Canvas.width canvas) (Canvas.height canvas)
    = inr imageData ->
  engine imageData (decodeHints (this rt)) = Pending ->
  fst (decode engine canvas rt) = Pending
  /\ engineCalls (snd (decode engine canvas rt))
     = (engineCalls rt ++ [(imageData, decodeHints (this rt))])%list.
Proof.
  intros Hctx Hpix Hres. rewrite decode_cases, Hctx, Hpix, Hres.
  split; reflexivity.
Qed.

Lemma decode_engine_silent_witness :
  fst (decode exampleSilentEngine exampleCanvas exampleConstructed) = Pending
  /\ engineCalls (snd (decode exampleSilentEngine exampleCanvas
                         exampleConstructed))
     = (engineCalls exampleConstructed
          ++ [(exampleImage, decodeHints (this exampleConstructed))])%list.
Proof.
  apply (decode_engine_silent exampleSilentEngine exampleCanvas
           exampleContext exampleImage exampleConstructed);
    reflexivity.
Defined.

(** X5.  [decode] resolves only with what the engine found: a fulfilled
    promise means that the canvas gave its pixels, the engine fulfilled
    with a non-empty list, the tag of its first result is in the reverse
    table, and the result is built from that first result. *)
Theorem decode_fulfilled_only_from_engine
    (engine : ImageData -> option DecodeHints.t -> PromiseState (list ReadResult.t))
    (canvas : Canvas.HTMLCanvasElement) (rt : Runtime)
    (result : QrcodeResult.t) :
  fst (decode engine canvas rt) = Fulfilled result ->
  exists ctx imageData res rest kind,
    Canvas.getContext canvas "2d" {| Canvas.willReadFrequently := true |}
      = Some ctx
    /\ Canvas.getImageData ctx 0%Z 0%Z (Canvas.width canvas)
         (Canvas.height canvas)
       = inr imageData
    /\ engine imageData (decodeHints (this rt)) = Fulfilled (res :: rest)
    /\ JsMap.get (reverseFormatMap (this rt)) (ReadResult.format res)
       = Some kind
    /\ result
       = {| QrcodeResult.text := ReadResult.text res;
            QrcodeResult.format := QrcodeResultFormat.create kind;
            QrcodeResult.debugData :=
              {| QrcodeResultDebugData.decoderName := "zxing-wasm" |} |}.
Proof.
  rewrite decode_cases.
  destruct (Canvas.getContext canvas "2d" {| Canvas.willReadFrequently := true |})
    as [ctx|] eqn:Hctx; [|discriminate].
  destruct (Canvas.getImageData ctx 0%Z 0%Z (Canvas.width canvas)
              (Canvas.height canvas)) as [error|imageData] eqn:Hpix;
    [discriminate|].
  cbn [fst].
  destruct (engine imageData (decodeHints (this rt)))
    as [|[|res rest]|reason] eqn:Hres; try discriminate.
  destruct (JsMap.get (reverseFormatMap (this rt)) (ReadResult.format res))
    as [kind|] eqn:Hkind; [|discriminate].
  intros [= <-]. exists ctx, imageData, res, rest, kind.
  split; [reflexivity|]. split; [exact Hpix|]. split; [exact Hres|].
  split; [exact Hkind | reflexivity].
Qed.

Lemma decode_fulfilled_only_from_engine_witness :
  exists ctx imageData res rest kind,
    Canvas.getContext exampleCanvas "2d" {| Canvas.willReadFrequently := true |}
      = Some ctx
    /\ Canvas.getImageData ctx 0%Z 0%Z (Canvas.width exampleCanvas)
         (Canvas.height exampleCanvas)
       = inr imageData
    /\ exampleEngine [exampleEan; exampleQr] imageData
         (decodeHints (this exampleConstructed))
       = Fulfilled (res :: rest)
    /\ JsMap.get (reverseFormatMap (this exampleConstructed))
         (ReadResult.format res)
       = Some kind
    /\ {| QrcodeResult.text := "4006381333931";
          QrcodeResult.format := QrcodeResultFormat.create EAN_13;
          QrcodeResult.debugData :=
            {| QrcodeResultDebugData.decoderName := "zxing-wasm" |} |}
       = {| QrcodeResult.text := ReadResult.text res;
            QrcodeResult.format := QrcodeResultFormat.create kind;
            QrcodeResult.debugData :=
              {| QrcodeResultDebugData.decoderName := "zxing-wasm" |} |}.
Proof.
  apply (decode_fulfilled_only_from_engine (exampleEngine [exampleEan; exampleQr])
           exampleCanvas exampleConstructed).
  reflexivity.
Defined.

(** X6.  [decode] reads two fields of the instance, the hints and the
    reverse table: on the same canvas and engine, two instances that
    agree on both settle the promise alike, whatever their verbosity,
    logger and override path are. *)
Theorem decode_reads_hints_and_reverse_table
    (engine : ImageData -> option DecodeHints.t -> PromiseState (list ReadResult.t))
    (canvas : Canvas.HTMLCanvasElement) (rt1 rt2 : Runtime) :
  decodeHints (this rt1) = decodeHints (this rt2) ->
  reverseFormatMap (this rt1) = reverseFormatMap (this rt2) ->
  fst (decode engine canvas rt1) = fst (decode engine canvas rt2).
Proof.
  intros Hh Hr. rewrite !decode_cases, Hh, Hr.
  destruct (Canvas.getContext canvas "2d" {| Canvas.willReadFrequently := true |})
    as [ctx|]; [|reflexivity].
  destruct (Canvas.getImageData ctx 0%Z 0%Z (Canvas.width canvas)
              (Canvas.height canvas)); reflexivity.
Qed.

Lemma decode_reads_hints_and_reverse_table_witness :
  fst (decode (exampleEngine [exampleQr]) exampleCanvas
         (snd (new exampleFormatToString [QR_CODE] false (LoggerRef 0) None
                 exampleRuntime)))
  = fst (decode (exampleEngine [exampleQr]) exampleCanvas
           (snd (new exampleFormatToString [QR_CODE] true (LoggerRef 7)
                   (Some "assets") exampleRuntime))).
Proof.
  apply (decode_reads_hints_and_reverse_table (exampleEngine [exampleQr])
           exampleCanvas); reflexivity.
Defined.

(** X7.  [decodeAsync], the public entry point, does exactly what
    [decode] does: the promise it returns reaches the state of the
    promise of [decode] and the runtime is changed alike; its [catch]
    branch never runs. *)
Theorem decodeAsync_follows_decode
    (engine : ImageData -> option DecodeHints.t -> PromiseState (list ReadResult.t))
    (canvas : Canvas.HTMLCanvasElement) (rt : Runtime) :
  decodeAsync engine canvas rt = decode engine canvas rt.
Proof.
  unfold decodeAsync, newPromise, tryCatch, callAsync, bind, ret.
  destruct (decode engine canvas rt) as [promise rt']. reflexivity.
Qed.

(** ** The reverse table of any forward table *)

Section ReversalOfAnyTable.
Context {K V : Type} `{SameValueZeroSpec K} `{SameValueZeroSpec V}.

(** With unique keys, every entry is found from its key. *)
Lemma In_get (m : JsMap.t K V) (k : K) (v : V) :
  NoDup (JsMap.keys m) -> In (k, v) m -> JsMap.get m k = Some v.
Proof.
  induction m as [|[k0 v0] m IH]; intros D I; simpl in *; [contradiction|].
  inversion D as [|? ? Hnotin D']; subst.
  destruct I as [[= -> ->]|I].
  - now rewrite JsMapFacts.same_refl.
  - rewrite JsMapFacts.same_neq; [now apply IH|].
    intros ->. apply Hnotin. unfold JsMap.keys.
    change k with (fst (k, v)). now apply in_map.
Qed.

(** Whatever the swapped table finds was in the forward table or already
    in the accumulator. *)
Lemma forEach_swap_sound (m : JsMap.t K V) : forall acc k v,
  JsMap.get
    (JsMap.forEach m (fun value key result => JsMap.set result value key) acc)
    v
  = Some k ->
  In (k, v) m \/ JsMap.get acc v = Some k.
Proof.
  unfold JsMap.forEach.
  induction m as [|[k0 v0] m IH]; intros acc k v G; simpl in *.
  - now right.
  - destruct (IH _ _ _ G) as [I|G'].
    + left. now right.
    + destruct (same v0 v) eqn:E.
      * apply same_eq in E. subst v0.
        rewrite JsMapFacts.get_set_same in G'. injection G' as ->.
        left. now left.
      * rewrite JsMapFacts.get_set_other in G'; [now right|].
        intros ->. rewrite JsMapFacts.same_refl in E. discriminate E.
Qed.

(** The entry that comes last among those with a given value is the one
    the swapped table keeps. *)
Lemma forEach_swap_last (before after : JsMap.t K V) (k : K) (v : V) :
  forall acc,
    ~ In v (JsMap.values after) ->
    JsMap.get
      (JsMap.forEach (before ++ (k, v) :: after)%list
         (fun value key result => JsMap.set result value key) acc)
      v
    = Some k.
Proof.
  intros acc N. unfold JsMap.forEach. rewrite fold_left_app. cbn [fold_left].
  pose proof (JsMapFacts.forEach_swap_absent after
                (JsMap.set
                   (fold_left
                      (fun acc0 e => JsMap.set acc0 (snd e) (fst e)) before acc)
                   v k) v N) as A.
  unfold JsMap.forEach in A. cbn [fst snd] in A |- *. rewrite A.
  apply JsMapFacts.get_set_same.
Qed.

(** A value of the table has a last entry. *)
Lemma last_entry_with_value (m : JsMap.t K V) (v : V) :
  In v (JsMap.values m) ->
  exists before k after,
    m = (before ++ (k, v) :: after)%list /\ ~ In v (JsMap.values after).
Proof.
  induction m as [|[k0 v0] m IH]; intros I; simpl in *; [contradiction|].
  destruct (in_dec (fun a b : V =>
                      match Bool.bool_dec (same a b) true with
                      | left E => left (proj1 (same_eq a b) E)
                      | right N => right (fun E => N (proj2 (same_eq a b) E))
                      end) v (JsMap.values m)) as [Im|Nm].
  - destruct (IH Im) as (before & k & after & -> & N).
    exists ((k0, v0) :: before), k, after. split; [reflexivity | exact N].
  - destruct I as [->|I]; [|contradiction].
    exists [], k0, m. split; [reflexivity | exact Nm].
Qed.

End ReversalOfAnyTable.

Lemma formatMap_keys_distinct :
  NoDup (JsMap.keys (formatMap fieldInitializers)).
Proof.
  cbv [fieldInitializers formatMap JsMap.keys JsMap.ofEntries
       formatMapEntries fold_left JsMap.set JsMap.empty fst snd same
       SameValueZero_format Html5QrcodeSupportedFormats_eqb map].
  repeat (constructor; [simpl; intuition discriminate|]). constructor.
Qed.

(** The reverse table of the instance finds nothing but entries of the
    forward table. *)
Lemma formatMap_forward_lookup
    (kind : Html5QrcodeSupportedFormats) (tag : string) :
  JsMap.get (reverseFormatMap fieldInitializers) tag = Some kind ->
  JsMap.get (formatMap fieldInitializers) kind = Some tag.
Proof.
  intros G.
  change (reverseFormatMap fieldInitializers)
    with (createReverseFormatMap (formatMap fieldInitializers)) in G.
  unfold createReverseFormatMap in G.
  apply forEach_swap_sound in G. destruct G as [I|G]; [|discriminate G].
  apply In_get; [apply formatMap_keys_distinct | exact I].
Qed.

(** X8.  For any forward table, the reverse table has exactly the tags
    the forward table uses as its keys. *)
Theorem createReverseFormatMap_keys
    (table : JsMap.t Html5QrcodeSupportedFormats string) (tag : string) :
  JsMap.has (createReverseFormatMap table) tag = true
  <-> In tag (JsMap.values table).
Proof.
  split.
  - intros Hhas. apply JsMapFacts.has_iff_get in Hhas. destruct Hhas as [kind G].
    unfold createReverseFormatMap in G.
    apply forEach_swap_sound in G. destruct G as [I|G]; [|discriminate G].
    unfold JsMap.values. change tag with (snd (kind, tag)). now apply in_map.
  - intros I. apply JsMapFacts.has_iff_get.
    destruct (last_entry_with_value table tag I)
      as (before & kind & after & -> & N).
    exists kind. unfold createReverseFormatMap. now apply forEach_swap_last.
Qed.

(** X9.  For any forward table, what the reverse table gives for a tag is
    a kind that the forward table lists with that tag. *)
Theorem createReverseFormatMap_sound
    (table : JsMap.t Html5QrcodeSupportedFormats string)
    (tag : string) (kind : Html5QrcodeSupportedFormats) :
  JsMap.get (createReverseFormatMap table) tag = Some kind ->
  In (kind, tag) table.
Proof.
  intros G. unfold createReverseFormatMap in G.
  apply forEach_swap_sound in G. destruct G as [I|G]; [exact I | discriminate G].
Qed.

Lemma createReverseFormatMap_sound_witness :
  In (AZTEC, "Aztec") (JsMap.ofEntries formatMapEntries).
Proof.
  apply (createReverseFormatMap_sound (JsMap.ofEntries formatMapEntries)
           "Aztec" AZTEC).
  reflexivity.
Defined.

(** X10.  When several kinds of a forward table carry the same tag, the
    reverse table maps the tag to the last of them: a later [set]
    replaces the earlier one. *)
Theorem createReverseFormatMap_last_wins
    (before after : JsMap.t Html5QrcodeSupportedFormats string)
    (kind : Html5QrcodeSupportedFormats) (tag : string) :
  ~ In tag (JsMap.values after) ->
  JsMap.get (createReverseFormatMap (before ++ (kind, tag) :: after)%list) tag
  = Some kind.
Proof.
  intros N. unfold createReverseFormatMap. now apply forEach_swap_last.
Qed.

Lemma createReverseFormatMap_last_wins_witness :
  JsMap.get
    (createReverseFormatMap
       ([(EAN_13, "EAN")] ++ (EAN_8, "EAN") :: [(ITF, "ITF")])%list)
    "EAN"
  = Some EAN_8.
Proof.
  apply (createReverseFormatMap_last_wins [(EAN_13, "EAN")] [(ITF, "ITF")]
           EAN_8 "EAN").
  simpl. intuition discriminate.
Defined.

(** X11.  On a constructed instance [toHtml5QrcodeSupportedFormats] is
    the exact inverse of the forward table: it returns a kind for a tag
    if and only if the forward table gives that tag for the kind; and it
    leaves the runtime as it was. *)
Theorem toHtml5QrcodeSupportedFormats_inverts_formatMap
    (formatToString : Html5QrcodeSupportedFormats -> string)
    (requestedFormats : list Html5QrcodeSupportedFormats)
    (verbose : bool) (logger : Logger) (wasmLocationOveride : option string)
    (rt : Runtime) (tag : string) (kind : Html5QrcodeSupportedFormats) :
  let constructed :=
    snd (new formatToString requestedFormats verbose logger
           wasmLocationOveride rt) in
  (fst (toHtml5QrcodeSupportedFormats tag constructed) = Returns kind
   <-> JsMap.get (formatMap (this constructed)) kind = Some tag)
  /\ snd (toHtml5QrcodeSupportedFormats tag constructed) = constructed.
Proof.
  cbv zeta.
  destruct (new_tables formatToString requestedFormats verbose logger
              wasmLocationOveride rt) as [Hf Hr].
  unfold toHtml5QrcodeSupportedFormats, bind, getThis, ret, throw.
  rewrite Hf, Hr.
  destruct (JsMap.get (reverseFormatMap fieldInitializers) tag)
    as [found|] eqn:G; cbn [fst snd].
  - split; [|reflexivity]. split.
    + intros [= <-]. now apply formatMap_forward_lookup.
    + intros F. apply formatMap_reverse_lookup in F. congruence.
  - split; [|reflexivity]. split.
    + discriminate.
    + intros F. apply formatMap_reverse_lookup in F. congruence.
Qed.

(** X12.  With a logger assigned, [createZXingFormats] does not throw:
    it returns the tags of the requested kinds the table has, in the
    order requested, and hands the logger one message for every
    requested kind the table lacks, in the order requested; nothing else
    in the runtime changes. *)
Theorem createZXingFormats_warns_and_goes_on
    (formatToString : Html5QrcodeSupportedFormats -> string)
    (requestedFormats : list Html5QrcodeSupportedFormats)
    (rt : Runtime) (receiver : Logger) :
  logger (this rt) = Some receiver ->
  let run := createZXingFormats formatToString requestedFormats rt in
  (exists tags,
     fst run = Returns tags
     /\ map Some tags
        = map (JsMap.get (formatMap (this rt)))
            (filter (JsMap.has (formatMap (this rt))) requestedFormats))
  /\ logErrorCalls (snd run)
     = (logErrorCalls rt
          ++ map (fun kind =>
                    (receiver,
                     (formatToString kind
                        ++ " is not supported byZXingWasmQrcodeShim")%string))
               (filter (fun kind => negb (JsMap.has (formatMap (this rt)) kind))
                  requestedFormats))%list
  /\ this (snd run) = this rt
  /\ zxingModuleOverrides (snd run) = zxingModuleOverrides rt
  /\ engineCalls (snd run) = engineCalls rt.
Proof.
  intros L. cbv zeta. unfold createZXingFormats.
  rewrite (createZXingFormats_loop_logger_assigned formatToString
             requestedFormats [] rt receiver L).
  cbn [fst snd app this zxingModuleOverrides logErrorCalls engineCalls].
  split.
  - eexists. split; [reflexivity|]. apply requestedTags_filter_map.
  - split; [|repeat split]. f_equal. unfold unsupportedWarnings.
    induction requestedFormats as [|k rest IH]; [reflexivity|].
    cbn [flat_map filter]. rewrite IH.
    now destruct (JsMap.has (formatMap (this rt)) k).
Qed.

Lemma createZXingFormats_warns_and_goes_on_witness :
  let run :=
    createZXingFormats exampleFormatToString [EAN_8; OTHER_FORMAT 3; QR_CODE]
      exampleConstructed in
  (exists tags,
     fst run = Returns tags
     /\ map Some tags
        = map (JsMap.get (formatMap (this exampleConstructed)))
            (filter (JsMap.has (formatMap (this exampleConstructed)))
               [EAN_8; OTHER_FORMAT 3; QR_CODE]))
  /\ logErrorCalls (snd run)
     = (logErrorCalls exampleConstructed
          ++ map (fun kind =>
                    (LoggerRef 0,
                     (exampleFormatToString kind
                        ++ " is not supported byZXingWasmQrcodeShim")%string))
               (filter (fun kind =>
                          negb (JsMap.has (formatMap (this exampleConstructed))
                                  kind))
                  [EAN_8; OTHER_FORMAT 3; QR_CODE]))%list
  /\ this (snd run) = this exampleConstructed
  /\ zxingModuleOverrides (snd run) = zxingModuleOverrides exampleConstructed
  /\ engineCalls (snd run) = engineCalls exampleConstructed.
Proof.
  apply (createZXingFormats_warns_and_goes_on exampleFormatToString
           [EAN_8; OTHER_FORMAT 3; QR_CODE] exampleConstructed (LoggerRef 0)).
  reflexivity.
Defined.

(** X13.  With a logger assigned, [createZXingFormats] accounts for every
    requested kind once: the tags returned and the messages logged add up
    to the number of kinds requested. *)
Theorem createZXingFormats_translates_or_warns
    (formatToString : Html5QrcodeSupportedFormats -> string)
    (requestedFormats : list Html5QrcodeSupportedFormats)
    (rt : Runtime) (receiver : Logger) :
  logger (this rt) = Some receiver ->
  let run := createZXingFormats formatToString requestedFormats rt in
  exists tags warnings,
    fst run = Returns tags
    /\ logErrorCalls (snd run) = (logErrorCalls rt ++ warnings)%list
    /\ length tags + length warnings = length requestedFormats.
Proof.
  intros L. cbv zeta. unfold createZXingFormats.
  rewrite (createZXingFormats_loop_logger_assigned formatToString
             requestedFormats [] rt receiver L).
  cbn [fst snd app logErrorCalls].
  eexists. eexists. split; [reflexivity|]. split; [reflexivity|].
  unfold requestedTags, unsupportedWarnings, JsMap.has.
  induction requestedFormats as [|k rest IH]; [reflexivity|].
  cbn [flat_map]. rewrite !length_app.
  destruct (JsMap.get (formatMap (this rt)) k); cbn [length]; lia.
Qed.

Lemma createZXingFormats_translates_or_warns_witness :
  let run :=
    createZXingFormats exampleFormatToString
      [OTHER_FORMAT 1; UPC_A; OTHER_FORMAT 1] exampleConstructed in
  exists tags warnings,
    fst run = Returns tags
    /\ logErrorCalls (snd run)
       = (logErrorCalls exampleConstructed ++ warnings)%list
    /\ length tags + length warnings
       = length [OTHER_FORMAT 1; UPC_A; OTHER_FORMAT 1].
Proof.
  apply (createZXingFormats_translates_or_warns exampleFormatToString
           [OTHER_FORMAT 1; UPC_A; OTHER_FORMAT 1] exampleConstructed
           (LoggerRef 0)).
  reflexivity.
Defined.

(** ** Construction, beyond the specification *)

(** X14.  Construction completes exactly when every requested kind is a
    key of the adapter's table. *)
Theorem new_completes_iff_all_in_table
    (formatToString : Html5QrcodeSupportedFormats -> string)
    (requestedFormats : list Html5QrcodeSupportedFormats)
    (verbose : bool) (logger : Logger) (wasmLocationOveride : option string)
    (rt : Runtime) :
  fst (new formatToString requestedFormats verbose logger wasmLocationOveride rt)
    = Returns tt
  <-> Forall (fun kind => JsMap.has (formatMap fieldInitializers) kind = true)
        requestedFormats.
Proof.
  rewrite new_outcome. unfold allInTable.
  rewrite Forall_forall, <- forallb_forall.
  destruct (forallb (JsMap.has (formatMap fieldInitializers)) requestedFormats);
    split; intros E; try reflexivity; discriminate E.
Qed.

(** X15.  After a construction that completed, the enabled tags are the
    tags of the requested kinds, one for one and in the same order. *)
Theorem new_formats_one_for_one
    (formatToString : Html5QrcodeSupportedFormats -> string)
    (requestedFormats : list Html5QrcodeSupportedFormats)
    (verbose : bool) (logger : Logger) (wasmLocationOveride : option string)
    (rt : Runtime) :
  fst (new formatToString requestedFormats verbose logger wasmLocationOveride rt)
    = Returns tt ->
  exists hints,
    decodeHints
      (this (snd (new formatToString requestedFormats verbose logger
                    wasmLocationOveride rt)))
      = Some hints
    /\ map Some (DecodeHints.formats hints)
       = map (JsMap.get (formatMap fieldInitializers)) requestedFormats
    /\ length (DecodeHints.formats hints) = length requestedFormats.
Proof.
  intros R. rewrite new_outcome in R. unfold allInTable in R.
  destruct (forallb (JsMap.has (formatMap fieldInitializers)) requestedFormats)
    eqn:S; [|discriminate R].
  destruct (new_assigned formatToString requestedFormats verbose logger
              wasmLocationOveride rt S) as (Hh & _).
  eexists. split; [exact Hh|]. cbn [DecodeHints.formats].
  assert (E : map Some (requestedTags (formatMap fieldInitializers) requestedFormats)
              = map (JsMap.get (formatMap fieldInitializers)) requestedFormats).
  { rewrite requestedTags_filter_map. f_equal.
    clear - S. induction requestedFormats as [|k rest IH]; [reflexivity|].
    cbn [forallb filter] in *. apply andb_prop in S. destruct S as [Sk Sr].
    rewrite Sk. f_equal. now apply IH. }
  split; [exact E|].
  apply (f_equal (@length _)) in E. now rewrite !length_map in E.
Qed.

Lemma new_formats_one_for_one_witness :
  exists hints,
    decodeHints
      (this (snd (new exampleFormatToString [UPC_E; AZTEC; UPC_E] true
                    (LoggerRef 2) None exampleRuntime)))
      = Some hints
    /\ map Some (DecodeHints.formats hints)
       = map (JsMap.get (formatMap fieldInitializers)) [UPC_E; AZTEC; UPC_E]
    /\ length (DecodeHints.formats hints) = length [UPC_E; AZTEC; UPC_E].
Proof.
  apply (new_formats_one_for_one exampleFormatToString [UPC_E; AZTEC; UPC_E]
           true (LoggerRef 2) None exampleRuntime).
  reflexivity.
Defined.

(** X16.  Without an override path the constructor registers nothing:
    the overrides known to the engine stay what they were and
    [this.wasmLocationOverride] stays [undefined]. *)
Theorem new_without_override
    (formatToString : Html5QrcodeSupportedFormats -> string)
    (requestedFormats : list Html5QrcodeSupportedFormats)
    (verbose : bool) (logger : Logger) (rt : Runtime) :
  let constructed :=
    snd (new formatToString requestedFormats verbose logger None rt) in
  zxingModuleOverrides constructed = zxingModuleOverrides rt
  /\ wasmLocationOverride (this constructed) = None.
Proof.
  cbv zeta. rewrite new_zxingModuleOverrides, new_wasmLocationOverride.
  split; reflexivity.
Qed.

(** X17.  The stored override path is a fixed point of the constructor:
    supplied again as the override, it is stored unchanged. *)
Theorem override_stored_path_is_stable
    (formatToString : Html5QrcodeSupportedFormats -> string)
    (requestedFormats requestedFormats' : list Html5QrcodeSupportedFormats)
    (verbose verbose' : bool) (logger logger' : Logger)
    (path stored : string) (rt rt' : Runtime) :
  wasmLocationOverride
    (this (snd (new formatToString requestedFormats verbose logger
                  (Some path) rt)))
    = Some stored ->
  wasmLocationOverride
    (this (snd (new formatToString requestedFormats' verbose' logger'
                  (Some stored) rt')))
    = Some stored.
Proof.
  rewrite !new_wasmLocationOverride. cbn [option_map]. unfold storedOverride.
  intros [= <-].
  destruct (JsString.endsWith path "/") eqn:E.
  - now rewrite E.
  - now rewrite JsStringFacts.endsWith_append.
Qed.

Lemma override_stored_path_is_stable_witness :
  wasmLocationOverride
    (this (snd (new exampleFormatToString [ITF] true (LoggerRef 1)
                  (Some "static/wasm/") exampleConstructed)))
    = Some "static/wasm/".
Proof.
  apply (override_stored_path_is_stable exampleFormatToString [QR_CODE] [ITF]
           false true (LoggerRef 0) (LoggerRef 1) "static/wasm" "static/wasm/"
           exampleRuntime exampleConstructed).
  reflexivity.
Defined.

(** X18.  A construction that fails on a kind the table lacks has
    already stored the override path and replaced the resolver known to
    the engine: the registration is not undone by the failure. *)
Theorem new_failed_keeps_registration
    (formatToString : Html5QrcodeSupportedFormats -> string)
    (requestedFormats : list Html5QrcodeSupportedFormats)
    (kind : Html5QrcodeSupportedFormats)
    (verbose : bool) (logger : Logger) (path : string) (rt : Runtime) :
  In kind requestedFormats ->
  JsMap.has (formatMap fieldInitializers) kind = false ->
  let run :=
    new formatToString requestedFormats verbose logger (Some path) rt in
  fst run = Throws (TypeError "this.logger")
  /\ zxingModuleOverrides (snd run) = Some locateFile
  /\ wasmLocationOverride (this (snd run))
     = Some (if JsString.endsWith path "/" then path else path ++ "/").
Proof.
  intros I Hk. cbv zeta.
  assert (U : allInTable requestedFormats = false).
  { unfold allInTable.
    destruct (forallb (JsMap.has (formatMap fieldInitializers)) requestedFormats)
      eqn:S; [|reflexivity].
    rewrite forallb_forall in S. rewrite (S kind I) in Hk. discriminate Hk. }
  rewrite new_outcome, U, new_zxingModuleOverrides, new_wasmLocationOverride.
  repeat split.
Qed.

Lemma new_failed_keeps_registration_witness :
  let run :=
    new exampleFormatToString [QR_CODE; OTHER_FORMAT 12] false (LoggerRef 0)
      (Some "cdn") exampleRuntime in
  fst run = Throws (TypeError "this.logger")
  /\ zxingModuleOverrides (snd run) = Some locateFile
  /\ wasmLocationOverride (this (snd run))
     = Some (if JsString.endsWith "cdn" "/" then "cdn" else "cdn" ++ "/").
Proof.
  apply (new_failed_keeps_registration exampleFormatToString
           [QR_CODE; OTHER_FORMAT 12] (OTHER_FORMAT 12) false (LoggerRef 0)
           "cdn" exampleRuntime).
  - simpl. auto.
  - reflexivity.
Defined.


(** X20.  The resolver never alters the file name: whatever the instance,
    the path it returns ends with the path requested. *)
Theorem locateFile_keeps_file_name
    (this : ZXingWasmQrcodeDecoder) (path prefix : string) :
  JsString.endsWith (locateFile this path prefix) path = true.
Proof.
  unfold locateFile.
  destruct (JsString.endsWith path ".wasm");
    apply JsStringFacts.endsWith_append.
Qed.

(** ** Construction and decoding together *)

Lemma requestedTags_In
    (table : JsMap.t Html5QrcodeSupportedFormats string)
    (requestedFormats : list Html5QrcodeSupportedFormats) (tag : string) :
  In tag (requestedTags table requestedFormats) ->
  exists kind, In kind requestedFormats /\ JsMap.get table kind = Some tag.
Proof.
  unfold requestedTags. rewrite in_flat_map. intros (kind & I & T).
  exists kind. split; [exact I|].
  destruct (JsMap.get table kind) as [t|]; [|contradiction].
  destruct T as [->|[]]. reflexivity.
Qed.

Lemma new_enabled_tags_map_back_aux
    (formatToString : Html5QrcodeSupportedFormats -> string)
    (requestedFormats : list Html5QrcodeSupportedFormats)
    (verbose : bool) (logger : Logger) (wasmLocationOveride : option string)
    (rt : Runtime) :
  fst (new formatToString requestedFormats verbose logger wasmLocationOveride rt)
    = Returns tt ->
  forall hints,
    decodeHints
      (this (snd (new formatToString requestedFormats verbose logger
                    wasmLocationOveride rt)))
      = Some hints ->
    forall tag,
      In tag (DecodeHints.formats hints) ->
      exists kind,
        In kind requestedFormats
        /\ JsMap.get
             (reverseFormatMap
                (this (snd (new formatToString requestedFormats verbose logger
                              wasmLocationOveride rt))))
             tag
           = Some kind.
Proof.
  intros R hints Hh tag I. rewrite new_outcome in R. unfold allInTable in R.
  destruct (forallb (JsMap.has (formatMap fieldInitializers)) requestedFormats)
    eqn:S; [|discriminate R].
  destruct (new_assigned formatToString requestedFormats verbose logger
              wasmLocationOveride rt S) as (Hh' & _).
  destruct (new_tables formatToString requestedFormats verbose logger
              wasmLocationOveride rt) as [_ Hr].
  rewrite Hh' in Hh. injection Hh as <-. cbn [DecodeHints.formats] in I.
  rewrite Hr. apply requestedTags_In in I. destruct I as (kind & I & G).
  exists kind. split; [exact I | now apply formatMap_reverse_lookup].
Qed.

(** X21.  After a construction that completed, every enabled tag is a
    key of the reverse table, and the kind it maps to is one of the
    kinds requested. *)
Theorem new_enabled_tags_map_back
    (formatToString : Html5QrcodeSupportedFormats -> string)
    (requestedFormats : list Html5QrcodeSupportedFormats)
    (verbose : bool) (logger : Logger) (wasmLocationOveride : option string)
    (rt : Runtime) :
  fst (new formatToString requestedFormats verbose logger wasmLocationOveride rt)
    = Returns tt ->
  let constructed :=
    snd (new formatToString requestedFormats verbose logger
           wasmLocationOveride rt) in
  exists hints,
    decodeHints (this constructed) = Some hints
    /\ Forall
         (fun tag =>
            exists kind,
              In kind requestedFormats
              /\ JsMap.get (reverseFormatMap (this constructed)) tag = Some kind)
         (DecodeHints.formats hints).
Proof.
  intros R. cbv zeta.
  destruct (decodeHints
              (this (snd (new formatToString requestedFormats verbose logger
                            wasmLocationOveride rt)))) as [hints|] eqn:Hh.
  - exists hints. split; [reflexivity|]. apply Forall_forall. intros tag I.
    exact (new_enabled_tags_map_back_aux formatToString requestedFormats
             verbose logger wasmLocationOveride rt R hints Hh tag I).
  - exfalso. rewrite new_outcome in R. unfold allInTable in R.
    destruct (forallb (JsMap.has (formatMap fieldInitializers)) requestedFormats)
      eqn:S; [|discriminate R].
    destruct (new_assigned formatToString requestedFormats verbose logger
                wasmLocationOveride rt S) as (Hh' & _).
    congruence.
Qed.

Lemma new_enabled_tags_map_back_witness :
  let constructed :=
    snd (new exampleFormatToString [PDF_417; CODE_128] false (LoggerRef 0)
           None exampleRuntime) in
  exists hints,
    decodeHints (this constructed) = Some hints
    /\ Forall
         (fun tag =>
            exists kind,
              In kind [PDF_417; CODE_128]
              /\ JsMap.get (reverseFormatMap (this constructed)) tag = Some kind)
         (DecodeHints.formats hints).
Proof.
  apply (new_enabled_tags_map_back exampleFormatToString [PDF_417; CODE_128]
           false (LoggerRef 0) None exampleRuntime).
  reflexivity.
Defined.

(** X22.  An engine that keeps to the hints never causes the
    consistency error: on an instance whose construction completed, when
    the tag of the engine's first result is one of the enabled tags,
    [decode] resolves, and with a kind that was requested. *)
Theorem decode_within_hints_resolves
    (formatToString : Html5QrcodeSupportedFormats -> string)
    (engine : ImageData -> option DecodeHints.t -> PromiseState (list ReadResult.t))
    (requestedFormats : list Html5QrcodeSupportedFormats)
    (verbose : bool) (logger : Logger) (wasmLocationOveride : option string)
    (rt : Runtime)
    (canvas : Canvas.HTMLCanvasElement) (ctx : Canvas.CanvasRenderingContext2D)
    (imageData : ImageData) (hints : DecodeHints.t)
    (res : ReadResult.t) (rest : list ReadResult.t) :
  fst (new formatToString requestedFormats verbose logger wasmLocationOveride rt)
    = Returns tt ->
  let constructed :=
    snd (new formatToString requestedFormats verbose logger
           wasmLocationOveride rt) in
  decodeHints (this constructed) = Some hints ->
  Canvas.getContext canvas "2d" {| Canvas.willReadFrequently := true |}
    = Some ctx ->
  Canvas.getImageData ctx 0%Z 0%Z (Canvas.width canvas) (Canvas.height canvas)
    = inr imageData ->
  engine imageData (Some hints) = Fulfilled (res :: rest) ->
  In (ReadResult.format res) (DecodeHints.formats hints) ->
  exists kind,
    In kind requestedFormats
    /\ fst (decode engine canvas constructed)
       = Fulfilled
           {| QrcodeResult.text := ReadResult.text res;
              QrcodeResult.format := QrcodeResultFormat.create kind;
              QrcodeResult.debugData :=
                {| QrcodeResultDebugData.decoderName := "zxing-wasm" |} |}.
Proof.
  intros R. cbv zeta. intros Hh Hctx Hpix Hres I.
  destruct (new_enabled_tags_map_back_aux formatToString requestedFormats
              verbose logger wasmLocationOveride rt R hints Hh
              (ReadResult.format res) I) as (kind & Ik & G).
  exists kind. split; [exact Ik|].
  rewrite decode_cases, Hctx, Hpix, Hh, Hres, G. reflexivity.
Qed.

Lemma decode_within_hints_resolves_witness :
  exists kind,
    In kind [QR_CODE]
    /\ fst (decode (exampleEngine [exampleQr; exampleUnmapped]) exampleCanvas
              exampleConstructed)
       = Fulfilled
           {| QrcodeResult.text := "hello";
              QrcodeResult.format := QrcodeResultFormat.create kind;
              QrcodeResult.debugData :=
                {| QrcodeResultDebugData.decoderName := "zxing-wasm" |} |}.
Proof.
  apply (decode_within_hints_resolves exampleFormatToString
           (exampleEngine [exampleQr; exampleUnmapped]) [QR_CODE] false
           (LoggerRef 0) None exampleRuntime exampleCanvas exampleContext
           exampleImage
           {| DecodeHints.tryHarder := false;
              DecodeHints.formats := ["QRCode"];
              DecodeHints.maxNumberOfSymbols := 1 |}
           exampleQr [exampleUnmapped]);
    try reflexivity.
  simpl. auto.
Defined.

(** X23.  The engine is called at most once for each call of [decode]:
    after any number of calls the log of engine calls has grown by no
    more than that number. *)
Theorem decodeEach_engine_calls_bounded
    (engine : ImageData -> option DecodeHints.t -> PromiseState (list ReadResult.t))
    (canvases : list Canvas.HTMLCanvasElement) (rt : Runtime) :
  length (engineCalls (decodeEach engine canvases rt))
  <= length (engineCalls rt) + length canvases.
Proof.
  revert rt. induction canvases as [|canvas rest IH]; intros rt; simpl.
  - lia.
  - specialize (IH (snd (decode engine canvas rt))).
    destruct (decode_engineCalls engine canvas rt) as [E|[imageData E]];
      rewrite E in IH; [|rewrite length_app in IH; simpl in IH]; lia.
Qed.
